(** * Task manager backend: the in-memory task store and its HTTP handlers

    A shallow embedding of [src/index.ts].  The process-wide array [tasks]
    becomes an explicit list threaded through the handlers; every handler
    returns the next store together with the response it sends.  Strings are
    sequences of UTF-16 code units, as in the language.  What the handlers
    take from their environment is an input of the model: [nanoid()] and
    [new Date().toISOString()] are arguments of the POST handler, and
    [String.prototype.toLowerCase] is a parameter of the listing handler.

    The handlers are given twice.  The first reading takes the TypeScript
    declarations at their word: a task is a [Task], a request body a
    [Partial<Task>].  The second, in [Wire], is the server as it runs:
    bodies and stored tasks are objects holding arbitrary JSON values, and
    a handler that throws is answered with 500.  The two agree on
    well-typed requests ([run_typed]); what depends on the values a client
    may send is stated and proved of the second. *)

From Stdlib Require Import NArith ZArith String Ascii.
From stdpp Require Import base decidable option list gmap.

(** ** Strings *)

(** A string value: its UTF-16 code units. *)
Abbreviation jsstring := (list N).

Module JS.

Local Open Scope N_scope.

(** A source literal whose characters are all ASCII. *)
Definition lit (s : string) : jsstring :=
  N_of_ascii <$> list_ascii_of_string s.

(** ECMAScript WhiteSpace: TAB, VT, FF, ZWNBSP and the code points of the
    Unicode category Zs. *)
Definition isWhiteSpace (c : N) : bool :=
  (c =? 0x0009) || (c =? 0x000B) || (c =? 0x000C) || (c =? 0xFEFF)
  || (c =? 0x0020) || (c =? 0x00A0) || (c =? 0x1680)
  || ((0x2000 <=? c) && (c <=? 0x200A))
  || (c =? 0x202F) || (c =? 0x205F) || (c =? 0x3000).

(** ECMAScript LineTerminator: LF, CR, LS, PS. *)
Definition isLineTerminator (c : N) : bool :=
  (c =? 0x000A) || (c =? 0x000D) || (c =? 0x2028) || (c =? 0x2029).

(** What [String.prototype.trim] strips from both ends. *)
Definition isTrimmed (c : N) : bool := isWhiteSpace c || isLineTerminator c.

Fixpoint trimStart (s : jsstring) : jsstring :=
  match s with
  | [] => []
  | c :: s' => if isTrimmed c then trimStart s' else s
  end.

Fixpoint trimEnd (s : jsstring) : jsstring :=
  match s with
  | [] => []
  | c :: s' =>
      match trimEnd s' with
      | [] => if isTrimmed c then [] else [c]
      | r => c :: r
      end
  end.

(** [s.trim()] *)
Definition trim (s : jsstring) : jsstring := trimEnd (trimStart s).

(** [s.startsWith(p)] *)
Fixpoint startsWith (s p : jsstring) {struct p} : bool :=
  match p, s with
  | [], _ => true
  | _ :: _, [] => false
  | c :: p', d :: s' => (c =? d) && startsWith s' p'
  end.

(** [s.includes(p)] *)
Fixpoint includes (s p : jsstring) : bool :=
  startsWith s p
  || match s with
     | [] => false
     | _ :: s' => includes s' p
     end.

(** Truthiness of a string: only the empty string is falsy. *)
Definition truthy (s : jsstring) : bool :=
  match s with
  | [] => false
  | _ :: _ => true
  end.

(** The restriction of [String.prototype.toLowerCase] to strings of ASCII
    code units; used to run the handlers on concrete requests. *)
Definition asciiLower (s : jsstring) : jsstring :=
  (fun c => if (0x41 <=? c) && (c <=? 0x5A) then c + 0x20 else c) <$> s.

(** A string with nothing but characters that [trim] strips. *)
Definition blank (s : jsstring) : Prop := Forall (fun c => isTrimmed c = true) s.

(** [p] occurs in [s] as a contiguous run of code units. *)
Definition occursIn (p s : jsstring) : Prop := exists a b, s = a ++ p ++ b.

End JS.

(** ** Data model *)

Inductive TaskCategory := Bug | Feature | Documentation | Refactor | Test.
Inductive TaskStatus := ToDo | InProgress | Done.
Inductive TaskPriority := Low | Medium | High.

(** [interface Task]; [description] is the one optional field. *)
Module Task.
Record t := mk {
  id : jsstring;
  title : jsstring;
  description : option jsstring;
  category : TaskCategory;
  status : TaskStatus;
  priority : TaskPriority;
  createdAt : jsstring
}.
End Task.

(** [Partial<Task>]: a request body; [None] is a field the body lacks. *)
Module Partial.
Record t := mk {
  id : option jsstring;
  title : option jsstring;
  description : option jsstring;
  category : option TaskCategory;
  status : option TaskStatus;
  priority : option TaskPriority;
  createdAt : option jsstring
}.

(** The body [{}]. *)
Definition empty : t := mk None None None None None None None.
End Partial.

(** A value of [req.query]: absent, a string, or what the query parser
    builds from repeated or bracketed keys (an array or a nested object). *)
Inductive QueryValue :=
| QUndefined
| QString (s : jsstring)
| QNested.

Record Query := { q_title : QueryValue; q_date : QueryValue }.

(** ** Responses *)

Inductive Body :=
| BTask (t : Task.t)
| BTasks (l : list Task.t)
| BError (error : string)
| BNone.

Record Response := { code : nat; body : Body }.

(** [res.json(x)] answers with status 200. *)
Definition json (b : Body) : Response := {| code := 200; body := b |}.
Definition status_json (c : nat) (b : Body) : Response := {| code := c; body := b |}.

Definition taskNotFound : Body := BError "Задача не найдена".
Definition titleRequired : Body := BError "Название задачи обязательно".
Definition fieldsRequired : Body := BError "Категория, статус и приоритет обязательны".
Definition titleEmpty : Body := BError "Название не может быть пустым".

(** ** The store *)

(** The initial value of [tasks]. *)
Definition seed : list Task.t :=
  [ Task.mk (JS.lit "1") (JS.lit "Fix UI glitches")
      (Some (JS.lit "Resolve layout shift issues on the dashboard when switching themes."))
      Bug ToDo Low (JS.lit "2025-07-15T09:00:00Z");
    Task.mk (JS.lit "2") (JS.lit "Add unit tests")
      (Some (JS.lit "Cover edge cases for the authentication module."))
      Feature ToDo High (JS.lit "2025-07-16T10:30:00Z");
    Task.mk (JS.lit "4") (JS.lit "Refactor auth middleware")
      (Some (JS.lit "Improve code readability and separate concerns for easier testing."))
      Refactor Done Medium (JS.lit "2025-07-12T08:20:00Z");
    Task.mk (JS.lit "5") (JS.lit "Fix login redirect bug")
      (Some (JS.lit "Users are not redirected properly after logging in."))
      Bug InProgress Medium (JS.lit "2025-07-17T11:10:00Z");
    Task.mk (JS.lit "7") (JS.lit "Document CLI usage")
      (Some (JS.lit "Write user-facing documentation for the new CLI tool."))
      Documentation Done Medium (JS.lit "2025-07-10T15:40:00Z") ].

(** [tasks.findIndex((t) => t.id === id)] together with the element found;
    [None] stands for the index [-1]. *)
Definition lookupId (id : jsstring) (tasks : list Task.t) : option (nat * Task.t) :=
  list_find (fun t => Task.id t = id) tasks.

Definition findIndex (id : jsstring) (tasks : list Task.t) : option nat :=
  fst <$> lookupId id tasks.

(** [tasks.find((t) => t.id === id)] *)
Definition find (id : jsstring) (tasks : list Task.t) : option Task.t :=
  snd <$> lookupId id tasks.

(** The ids of the stored tasks, in storage order. *)
Definition ids (tasks : list Task.t) : list jsstring := Task.id <$> tasks.

(** ** Handlers *)

Section List.

(** [String.prototype.toLowerCase], supplied by the runtime. *)
Variable toLowerCase : jsstring -> jsstring.

(** [title && typeof title === 'string'], with the string it guards. *)
Definition stringFilter (v : QueryValue) : option jsstring :=
  match v with
  | QString s => if JS.truthy s then Some s else None
  | QUndefined | QNested => None
  end.

Definition titleMatches (s : jsstring) (task : Task.t) : bool :=
  JS.includes (toLowerCase (Task.title task)) (toLowerCase s).

Definition dateMatches (d : jsstring) (task : Task.t) : bool :=
  JS.startsWith (Task.createdAt task) d.

(** [GET /tasks] *)
Definition getTasks (q : Query) (tasks : list Task.t) : Response :=
  let result := tasks in
  let result :=
    match stringFilter (q_title q) with
    | Some s => List.filter (titleMatches s) result
    | None => result
    end in
  let result :=
    match stringFilter (q_date q) with
    | Some d => List.filter (dateMatches d) result
    | None => result
    end in
  json (BTasks result).

End List.

(** [GET /tasks/:id] *)
Definition getTask (id : jsstring) (tasks : list Task.t) : Response :=
  match find id tasks with
  | None => status_json 404 taskNotFound
  | Some task => json (BTask task)
  end.

(** [!title || !title.trim()] *)
Definition titleMissing (title : option jsstring) : bool :=
  match title with
  | None => true
  | Some s => negb (JS.truthy s) || negb (JS.truthy (JS.trim s))
  end.

(** [description || ''] *)
Definition descriptionOrEmpty (description : option jsstring) : jsstring :=
  match description with
  | Some d => if JS.truthy d then d else []
  | None => []
  end.

(** [POST /tasks]; [nid] is what [nanoid()] returns and [now] what
    [new Date().toISOString()] returns when the handler reaches them. *)
Definition postTask (nid now : jsstring) (b : Partial.t) (tasks : list Task.t)
  : list Task.t * Response :=
  if titleMissing (Partial.title b) then (tasks, status_json 400 titleRequired)
  else
    match Partial.title b, Partial.category b, Partial.status b, Partial.priority b with
    | Some title, Some category, Some status, Some priority =>
        let newTask :=
          {| Task.id := nid;
             Task.title := JS.trim title;
             Task.description := Some (descriptionOrEmpty (Partial.description b));
             Task.category := category;
             Task.status := status;
             Task.priority := priority;
             Task.createdAt := now |} in
        (tasks ++ [newTask], status_json 201 (BTask newTask))
    | _, _, _, _ => (tasks, status_json 400 fieldsRequired)
    end.

(** [{ ...task, ...updates }]: a field the body has replaces the stored one. *)
Definition spread (task : Task.t) (updates : Partial.t) : Task.t :=
  {| Task.id := default (Task.id task) (Partial.id updates);
     Task.title := default (Task.title task) (Partial.title updates);
     Task.description :=
       match Partial.description updates with
       | Some d => Some d
       | None => Task.description task
       end;
     Task.category := default (Task.category task) (Partial.category updates);
     Task.status := default (Task.status task) (Partial.status updates);
     Task.priority := default (Task.priority task) (Partial.priority updates);
     Task.createdAt := default (Task.createdAt task) (Partial.createdAt updates) |}.

(** [updates.title !== undefined && !updates.title.trim()] *)
Definition titleBlank (title : option jsstring) : bool :=
  match title with
  | None => false
  | Some s => negb (JS.truthy (JS.trim s))
  end.

(** [PATCH /tasks/:id] *)
Definition patchTask (id : jsstring) (updates : Partial.t) (tasks : list Task.t)
  : list Task.t * Response :=
  match lookupId id tasks with
  | None => (tasks, status_json 404 taskNotFound)
  | Some (taskIndex, task) =>
      if titleBlank (Partial.title updates) then (tasks, status_json 400 titleEmpty)
      else
        let merged := spread task updates in
        (<[taskIndex := merged]> tasks, json (BTask merged))
  end.

(** [DELETE /tasks/:id]; [tasks.splice(taskIndex, 1)] removes one element. *)
Definition deleteTask (id : jsstring) (tasks : list Task.t) : list Task.t * Response :=
  match findIndex id tasks with
  | None => (tasks, status_json 404 taskNotFound)
  | Some taskIndex => (delete taskIndex tasks, status_json 204 BNone)
  end.

(** ** Sequences of mutating requests *)

Inductive Op :=
| Create (nid now : jsstring) (b : Partial.t)
| Update (id : jsstring) (updates : Partial.t)
| Delete (id : jsstring).

Definition step (op : Op) (tasks : list Task.t) : list Task.t * Response :=
  match op with
  | Create nid now b => postTask nid now b tasks
  | Update id updates => patchTask id updates tasks
  | Delete id => deleteTask id tasks
  end.

(** The store after serving the requests [ops] in order. *)
Fixpoint run (ops : list Op) (tasks : list Task.t) : list Task.t :=
  match ops with
  | [] => tasks
  | op :: rest => run rest (fst (step op tasks))
  end.

(** ** The server as it runs

    At run time [req.body] is whatever JSON the client sent, and a stored
    task is whatever object the handlers have built from it.  The
    definitions of this part follow the same source lines on untyped data:
    a body and a stored task are maps from property names to JSON values, a
    method called on a value that does not have it throws, and a request
    whose handler throws is answered with 500.  A request is taken to
    carry a JSON body, as [express.json()] hands it to the handler. *)

(** A number as [JSON.parse] yields it: a zero, a non-zero finite value
    [± mantissa * 2 ^ exponent], or an infinity. *)
Inductive JSNumber :=
| NumZero (negative : bool)
| NumFinite (negative : bool) (mantissa : positive) (exponent : Z)
| NumInfinity (negative : bool).

(** A JSON value. *)
#[local] Unset Elimination Schemes.
Inductive JSON :=
| JNull
| JBool (b : bool)
| JNumber (x : JSNumber)
| JString (s : jsstring)
| JArray (elements : list JSON)
| JObject (properties : list (jsstring * JSON)).
#[local] Set Elimination Schemes.

(** An object by its own enumerable properties: a stored task, or the
    parsed body of a request (for an array body, its indices). *)
Abbreviation jsobject := (gmap jsstring JSON).

(** What a handler throws. *)
Inductive Thrown := TypeError.

(** A computation that returns or throws. *)
Definition Exc (A : Type) : Type := Thrown + A.

Definition bindExc {A B} (c : Exc A) (k : A -> Exc B) : Exc B :=
  match c with
  | inl e => inl e
  | inr a => k a
  end.

Notation "x <-! c ; k" := (bindExc c (fun x => k))
  (at level 20, c at level 100, k at level 200, only parsing).

Module Wire.

Definition name (s : string) : jsstring := JS.lit s.

(** Truthiness of the value of a property; [None] is [undefined]. *)
Definition truthy (v : option JSON) : bool :=
  match v with
  | None => false
  | Some JNull => false
  | Some (JBool b) => b
  | Some (JNumber (NumZero _)) => false
  | Some (JNumber _) => true
  | Some (JString s) => JS.truthy s
  | Some (JArray _) => true
  | Some (JObject _) => true
  end.

(** [v.trim()]: only a string has the method; on [null], [undefined] or any
    other value the call throws. *)
Definition trim (v : option JSON) : Exc jsstring :=
  match v with
  | Some (JString s) => inr (JS.trim s)
  | _ => inl TypeError
  end.

Inductive Body :=
| BTask (t : jsobject)
| BTasks (l : list jsobject)
| BError (error : string)
| BNone
| BUncaught (e : Thrown).

Record Response := { code : nat; body : Body }.

Definition json (b : Body) : Response := {| code := 200; body := b |}.
Definition status_json (c : nat) (b : Body) : Response := {| code := c; body := b |}.

Definition taskNotFound : Body := BError "Задача не найдена".
Definition titleRequired : Body := BError "Название задачи обязательно".
Definition fieldsRequired : Body := BError "Категория, статус и приоритет обязательны".
Definition titleEmpty : Body := BError "Название не может быть пустым".

(** What the framework does with a handler: the response and store the
    handler produced, or, when it threw, status 500 from the default error
    handler and the store as the handler found it (no handler writes to
    the store before the last call that can throw). *)
Definition serve (tasks : list jsobject) (h : Exc (list jsobject * Response))
  : list jsobject * Response :=
  match h with
  | inr r => r
  | inl e => (tasks, status_json 500 (BUncaught e))
  end.

(** The text of the three string-literal unions. *)
Definition categoryText (c : TaskCategory) : jsstring :=
  match c with
  | Bug => JS.lit "Bug"
  | Feature => JS.lit "Feature"
  | Documentation => JS.lit "Documentation"
  | Refactor => JS.lit "Refactor"
  | Test => JS.lit "Test"
  end.

Definition statusText (s : TaskStatus) : jsstring :=
  match s with
  | ToDo => JS.lit "To Do"
  | InProgress => JS.lit "In Progress"
  | Done => JS.lit "Done"
  end.

Definition priorityText (p : TaskPriority) : jsstring :=
  match p with
  | Low => JS.lit "Low"
  | Medium => JS.lit "Medium"
  | High => JS.lit "High"
  end.

(** A property that is there or not. *)
Definition optional (k : jsstring) (v : option JSON) (o : jsobject) : jsobject :=
  match v with
  | Some x => <[k := x]> o
  | None => o
  end.

(** The object a well-typed task is. *)
Definition ofTask (t : Task.t) : jsobject :=
  <[name "id" := JString (Task.id t)]>
  (<[name "title" := JString (Task.title t)]>
  (optional (name "description") (JString <$> Task.description t)
  (<[name "category" := JString (categoryText (Task.category t))]>
  (<[name "status" := JString (statusText (Task.status t))]>
  (<[name "priority" := JString (priorityText (Task.priority t))]>
  (<[name "createdAt" := JString (Task.createdAt t)]> ∅)))))).

(** The object a well-typed body is. *)
Definition ofPartial (b : Partial.t) : jsobject :=
  optional (name "id") (JString <$> Partial.id b)
  (optional (name "title") (JString <$> Partial.title b)
  (optional (name "description") (JString <$> Partial.description b)
  (optional (name "category") (JString ∘ categoryText <$> Partial.category b)
  (optional (name "status") (JString ∘ statusText <$> Partial.status b)
  (optional (name "priority") (JString ∘ priorityText <$> Partial.priority b)
  (optional (name "createdAt") (JString <$> Partial.createdAt b) ∅)))))).

(** The initial value of [tasks]. *)
Definition seed : list jsobject := ofTask <$> seed.

(** [t.id === id]: the stored id is a string, and the same one. *)
Definition hasId (id : jsstring) (t : jsobject) : bool :=
  match t !! name "id" with
  | Some (JString s) => bool_decide (s = id)
  | _ => false
  end.

(** [tasks.findIndex((t) => t.id === id)] with the element found. *)
Definition lookupId (id : jsstring) (tasks : list jsobject) : option (nat * jsobject) :=
  list_find (fun t => hasId id t = true) tasks.

Section List.

Variable toLowerCase : jsstring -> jsstring.

(** [task.title.toLowerCase().includes(title.toLowerCase())] *)
Definition titleMatches (s : jsstring) (task : jsobject) : Exc bool :=
  match task !! name "title" with
  | Some (JString t) => inr (JS.includes (toLowerCase t) (toLowerCase s))
  | _ => inl TypeError
  end.

(** [task.createdAt.startsWith(date)] *)
Definition dateMatches (d : jsstring) (task : jsobject) : Exc bool :=
  match task !! name "createdAt" with
  | Some (JString c) => inr (JS.startsWith c d)
  | _ => inl TypeError
  end.

(** [result.filter(f)] for a callback that can throw: the elements are
    tested in order and the first throw ends the call. *)
Fixpoint filterExc (f : jsobject -> Exc bool) (l : list jsobject) : Exc (list jsobject) :=
  match l with
  | [] => inr []
  | x :: rest =>
      b <-! f x;
      r <-! filterExc f rest;
      inr (if b then x :: r else r)
  end.

(** [GET /tasks] *)
Definition getTasks (q : Query) (tasks : list jsobject) : Exc (list jsobject * Response) :=
  let result := tasks in
  result <-!
    match stringFilter (q_title q) with
    | Some s => filterExc (titleMatches s) result
    | None => inr result
    end;
  result <-!
    match stringFilter (q_date q) with
    | Some d => filterExc (dateMatches d) result
    | None => inr result
    end;
  inr (tasks, json (BTasks result)).

End List.

(** [GET /tasks/:id] *)
Definition getTask (id : jsstring) (tasks : list jsobject) : Exc (list jsobject * Response) :=
  match snd <$> lookupId id tasks with
  | None => inr (tasks, status_json 404 taskNotFound)
  | Some task => inr (tasks, json (BTask task))
  end.

(** [description || ''] *)
Definition descriptionOrEmpty (description : option JSON) : JSON :=
  match description with
  | Some v => if truthy description then v else JString []
  | None => JString []
  end.

(** The object literal of the POST handler, from the values of its seven
    property initialisers. *)
Definition newTask (nid trimmed now : jsstring)
    (description category status priority : option JSON) : jsobject :=
  <[name "id" := JString nid]>
  (<[name "title" := JString trimmed]>
  (<[name "description" := descriptionOrEmpty description]>
  (optional (name "category") category
  (optional (name "status") status
  (optional (name "priority") priority
  (<[name "createdAt" := JString now]> ∅)))))).

(** [POST /tasks] *)
Definition postTask (nid now : jsstring) (b : jsobject) (tasks : list jsobject)
  : Exc (list jsobject * Response) :=
  let title := b !! name "title" in
  let description := b !! name "description" in
  let category := b !! name "category" in
  let status := b !! name "status" in
  let priority := b !! name "priority" in
  if negb (truthy title) then inr (tasks, status_json 400 titleRequired)
  else
    trimmed <-! trim title;
    if negb (JS.truthy trimmed) then inr (tasks, status_json 400 titleRequired)
    else if negb (truthy category) || negb (truthy status) || negb (truthy priority)
    then inr (tasks, status_json 400 fieldsRequired)
    else
      trimmed <-! trim title;
      let created := newTask nid trimmed now description category status priority in
      inr (tasks ++ [created], status_json 201 (BTask created)).

(** [{ ...task, ...updates }]: every property of the body is copied over the
    stored task's, whatever its name and value. *)
Definition spread (task updates : jsobject) : jsobject := updates ∪ task.

(** [PATCH /tasks/:id] *)
Definition patchTask (id : jsstring) (updates : jsobject) (tasks : list jsobject)
  : Exc (list jsobject * Response) :=
  match lookupId id tasks with
  | None => inr (tasks, status_json 404 taskNotFound)
  | Some (taskIndex, task) =>
      blank <-!
        match updates !! name "title" with
        | Some v => trimmed <-! trim (Some v); inr (negb (JS.truthy trimmed))
        | None => inr false
        end;
      if blank then inr (tasks, status_json 400 titleEmpty)
      else
        let merged := spread task updates in
        inr (<[taskIndex := merged]> tasks, json (BTask merged))
  end.

(** [DELETE /tasks/:id] *)
Definition deleteTask (id : jsstring) (tasks : list jsobject) : Exc (list jsobject * Response) :=
  match fst <$> lookupId id tasks with
  | None => inr (tasks, status_json 404 taskNotFound)
  | Some taskIndex => inr (delete taskIndex tasks, status_json 204 BNone)
  end.

(** A mutating request as it arrives. *)
Inductive Op :=
| Create (nid now : jsstring) (b : jsobject)
| Update (id : jsstring) (updates : jsobject)
| Delete (id : jsstring).

Definition step (op : Op) (tasks : list jsobject) : list jsobject * Response :=
  serve tasks
    match op with
    | Create nid now b => postTask nid now b tasks
    | Update id updates => patchTask id updates tasks
    | Delete id => deleteTask id tasks
    end.

Fixpoint run (ops : list Op) (tasks : list jsobject) : list jsobject :=
  match ops with
  | [] => tasks
  | op :: rest => run rest (fst (step op tasks))
  end.

(** A task whose property [k] holds a string. *)
Definition stringAt (k : jsstring) (t : jsobject) : Prop :=
  exists s, t !! k = Some (JString s).




End Wire.

(** The typed responses and outcomes, as sent. *)
Definition wireBody (b : Body) : Wire.Body :=
  match b with
  | BTask t => Wire.BTask (Wire.ofTask t)
  | BTasks l => Wire.BTasks (Wire.ofTask <$> l)
  | BError e => Wire.BError e
  | BNone => Wire.BNone
  end.

Definition wireResponse (r : Response) : Wire.Response :=
  {| Wire.code := code r; Wire.body := wireBody (body r) |}.

Definition wireOutcome (o : list Task.t * Response) : list jsobject * Wire.Response :=
  (Wire.ofTask <$> fst o, wireResponse (snd o)).

Definition wireOp (op : Op) : Wire.Op :=
  match op with
  | Create nid now b => Wire.Create nid now (Wire.ofPartial b)
  | Update id updates => Wire.Update id (Wire.ofPartial updates)
  | Delete id => Wire.Delete id
  end.


(** ** Notions the statements below are phrased with *)

(** The body [{ status }]. *)
Definition statusOnly (s : TaskStatus) : Partial.t :=
  Partial.mk None None None None (Some s) None None.

(** A stored title that trimming does not empty. *)
Definition titleOk (t : Task.t) : Prop := JS.trim (Task.title t) <> [].

(** What the id generator and the clients must respect for ids to stay
    distinct: [nanoid()] returns an id no stored task has, and a PATCH body
    that carries an id repeats the id it addresses or names an unused one. *)
Definition keepsIdsDistinct (op : Op) (tasks : list Task.t) : Prop :=
  match op with
  | Create nid _ _ => nid ∉ ids tasks
  | Update id updates =>
      match Partial.id updates with
      | None => True
      | Some id' => id' = id \/ id' ∉ ids tasks
      end
  | Delete _ => True
  end.

Fixpoint allKeepIdsDistinct (ops : list Op) (tasks : list Task.t) : Prop :=
  match ops with
  | [] => True
  | op :: rest =>
      keepsIdsDistinct op tasks /\ allKeepIdsDistinct rest (fst (step op tasks))
  end.

(** Settle a decidable statement about concrete data by evaluation. *)
Ltac decide_by_running := apply (bool_decide_unpack _); vm_compute; exact I.

(** ** Facts about the string primitives *)

Module JSFacts.
Import JS.

Lemma blank_nil : blank [].
Proof. constructor. Qed.

Lemma blank_cons c s : blank (c :: s) <-> isTrimmed c = true /\ blank s.
Proof. unfold blank. rewrite Forall_cons. reflexivity. Qed.

Lemma trimStart_blank s : blank (trimStart s) <-> blank s.
Proof.
  induction s as [|c s IH]; simpl; [tauto|].
  destruct (isTrimmed c) eqn:Hc; [|tauto].
  rewrite IH, blank_cons. tauto.
Qed.

Lemma trimEnd_nil s : trimEnd s = [] <-> blank s.
Proof.
  induction s as [|c s IH]; simpl.
  - split; auto using blank_nil.
  - rewrite blank_cons, <- IH.
    destruct (trimEnd s) as [|d r]; destruct (isTrimmed c); split; intros H;
      try discriminate; try tauto; destruct H as [? H]; discriminate.
Qed.

Lemma trimEnd_blank s : blank (trimEnd s) <-> blank s.
Proof.
  induction s as [|c s IH]; simpl; [tauto|].
  pose proof (trimEnd_nil s) as Hnil.
  destruct (trimEnd s) as [|d r].
  - rewrite blank_cons.
    destruct (isTrimmed c) eqn:Hc.
    + split; intros _; [tauto | apply blank_nil].
    + rewrite blank_cons, Hc. split; intros [? ?]; discriminate.
  - rewrite !blank_cons in *. tauto.
Qed.

Lemma trim_nil s : trim s = [] <-> blank s.
Proof. unfold trim. rewrite trimEnd_nil. apply trimStart_blank. Qed.

Lemma trim_blank s : blank (trim s) <-> blank s.
Proof. unfold trim. rewrite trimEnd_blank. apply trimStart_blank. Qed.

(** Trimming twice never empties what trimming once left non-empty. *)
Lemma trim_trim_nil s : trim (trim s) = [] <-> trim s = [].
Proof. rewrite !trim_nil. apply trim_blank. Qed.

Lemma truthy_false s : truthy s = false <-> s = [].
Proof. destruct s; simpl; split; congruence. Qed.

Lemma truthy_trim_false s : truthy (trim s) = false <-> blank s.
Proof. rewrite truthy_false. apply trim_nil. Qed.

(** [trim] removes a blank prefix and a blank suffix, and nothing else. *)
Lemma trimStart_split s : exists l, s = l ++ trimStart s /\ blank l.
Proof.
  induction s as [|c s [l [Hs Hl]]]; simpl.
  - exists []. split; [reflexivity | apply blank_nil].
  - destruct (isTrimmed c) eqn:Hc.
    + exists (c :: l). split; [simpl; congruence | apply blank_cons; auto].
    + exists []. split; [reflexivity | apply blank_nil].
Qed.

Lemma trimEnd_split s : exists r, s = trimEnd s ++ r /\ blank r.
Proof.
  induction s as [|c s [r [Hs Hr]]]; simpl.
  - exists []. split; [reflexivity | apply blank_nil].
  - destruct (trimEnd s) as [|d t] eqn:Ht.
    + simpl in Hs. subst r.
      destruct (isTrimmed c) eqn:Hc.
      * exists (c :: s). split; [reflexivity | apply blank_cons; auto].
      * exists s. split; [reflexivity | assumption].
    + exists r. split; [simpl in *; congruence | assumption].
Qed.

Lemma trim_split s : exists l r, s = l ++ trim s ++ r /\ blank l /\ blank r.
Proof.
  destruct (trimStart_split s) as [l [Hl Bl]].
  destruct (trimEnd_split (trimStart s)) as [r [Hr Br]].
  exists l, r. unfold trim. rewrite <- Hr. auto.
Qed.

Lemma trimStart_head s c r : trimStart s = c :: r -> isTrimmed c = false.
Proof.
  induction s as [|d s IH]; simpl; [discriminate|].
  destruct (isTrimmed d) eqn:Hd; [assumption|].
  intros [= <- _]. assumption.
Qed.

Lemma trimEnd_last s r c : trimEnd s = r ++ [c] -> isTrimmed c = false.
Proof.
  revert r. induction s as [|d s IH]; simpl; intros r.
  - destruct r; discriminate.
  - destruct (trimEnd s) as [|e t].
    + destruct (isTrimmed d) eqn:Hd; [destruct r; discriminate|].
      destruct r as [|x [|y r]]; simpl; intros [= ]; subst; assumption.
    + destruct r as [|x r]; simpl; [discriminate|].
      intros [= _ H]. eapply IH. eassumption.
Qed.

Lemma trimEnd_head s c r : trimEnd s = c :: r -> exists s', s = c :: s'.
Proof.
  destruct s as [|d s]; simpl; [discriminate|].
  destruct (trimEnd s); [destruct (isTrimmed d)|]; intros [= ]; subst; eauto.
Qed.

(** What [trim] returns neither starts nor ends with a stripped character. *)
Lemma trim_ends s :
  (forall c r, trim s = c :: r -> isTrimmed c = false)
  /\ (forall r c, trim s = r ++ [c] -> isTrimmed c = false).
Proof.
  unfold trim. split.
  - intros c r H. destruct (trimEnd_head _ _ _ H) as [s' Hs'].
    eapply trimStart_head. eassumption.
  - intros r c H. eapply trimEnd_last. eassumption.
Qed.

Lemma startsWith_prefix s p : startsWith s p = true <-> p `prefix_of` s.
Proof.
  revert s. induction p as [|c p IH]; intros s; simpl.
  - split; [intros _; apply prefix_nil | reflexivity].
  - destruct s as [|d s].
    + split; [discriminate | intros H; apply prefix_nil_inv in H; discriminate].
    + rewrite andb_true_iff, N.eqb_eq, IH. split.
      * intros [-> H]. apply prefix_cons. assumption.
      * intros H. split; [eapply prefix_cons_inv_1 | eapply prefix_cons_inv_2]; eassumption.
Qed.

Lemma startsWith_nil s : startsWith s [] = true.
Proof. destruct s; reflexivity. Qed.

Lemma includes_nil s : includes s [] = true.
Proof. destruct s; reflexivity. Qed.

Lemma includes_occursIn s p : includes s p = true <-> occursIn p s.
Proof.
  unfold occursIn. induction s as [|d s IH]; simpl.
  - rewrite orb_false_r, startsWith_prefix. split.
    + intros [b Hb]. exists [], b. assumption.
    + intros [a [b H]]. destruct a; [|discriminate]. exists b. assumption.
  - rewrite orb_true_iff, startsWith_prefix, IH. split.
    + intros [[b Hb] | [a [b H]]].
      * exists [], b. assumption.
      * exists (d :: a), b. simpl. congruence.
    + intros [[|x a] [b H]].
      * left. exists b. assumption.
      * right. injection H as _ H. eauto.
Qed.

End JSFacts.

(** ** Looking a task up by id *)

Section Lookup.

Implicit Types (tasks : list Task.t) (id : jsstring) (t : Task.t) (k : nat).

Lemma lookupId_Some id tasks k t :
  lookupId id tasks = Some (k, t) <->
  tasks !! k = Some t /\ Task.id t = id
  /\ forall j y, tasks !! j = Some y -> (j < k)%nat -> Task.id y <> id.
Proof. unfold lookupId. rewrite list_find_Some. reflexivity. Qed.

Lemma lookupId_None id tasks : lookupId id tasks = None <-> id ∉ ids tasks.
Proof.
  unfold lookupId, ids. rewrite list_find_None, Forall_forall, list_elem_of_fmap.
  split.
  - intros H [t [-> Ht]]. apply (H t); [exact Ht | reflexivity].
  - intros H t Ht Hid. apply H. exists t. split; [congruence | exact Ht].
Qed.

Lemma lookupId_is_Some id tasks : id ∈ ids tasks -> is_Some (lookupId id tasks).
Proof.
  intros Hin. destruct (lookupId id tasks) eqn:E; [eauto|].
  apply lookupId_None in E. contradiction.
Qed.

Lemma lookupId_ids id tasks k t :
  lookupId id tasks = Some (k, t) -> ids tasks !! k = Some id.
Proof.
  intros (Hk & <- & _)%lookupId_Some. unfold ids.
  rewrite list_lookup_fmap, Hk. reflexivity.
Qed.

(** With pairwise distinct ids every stored task is the one its id finds. *)
Lemma lookupId_NoDup tasks t :
  NoDup (ids tasks) -> t ∈ tasks -> exists k, lookupId (Task.id t) tasks = Some (k, t).
Proof.
  intros Hnd Hin.
  destruct (lookupId_is_Some (Task.id t) tasks) as [[k t'] Hl].
  { unfold ids. apply list_elem_of_fmap. eauto. }
  exists k. rewrite Hl. f_equal. f_equal.
  apply list_elem_of_lookup in Hin as [j Hj].
  pose proof Hl as (Hk & Hid & _)%lookupId_Some.
  assert (j = k) as ->.
  { eapply NoDup_lookup; [exact Hnd | |]; unfold ids; rewrite list_lookup_fmap.
    - rewrite Hj. reflexivity.
    - rewrite Hk. simpl. congruence. }
  congruence.
Qed.

End Lookup.

(** ** Reading the collection *)

Section ListFacts.

Variable toLowerCase : jsstring -> jsstring.
Hypothesis toLowerCase_empty : toLowerCase [] = [].

Lemma filter_all {A} (f : A -> bool) (l : list A) :
  (forall x, f x = true) -> List.filter f l = l.
Proof.
  intros H. induction l as [|x l IH]; simpl; [reflexivity|].
  rewrite H, IH. reflexivity.
Qed.

Lemma elem_of_filter {A} (f : A -> bool) (l : list A) x :
  x ∈ List.filter f l <-> x ∈ l /\ f x = true.
Proof. rewrite !list_elem_of_In. apply filter_In. Qed.

Lemma filter_sublist {A} (f : A -> bool) (l : list A) : List.filter f l `sublist_of` l.
Proof.
  induction l as [|x l IH]; simpl; [constructor|].
  destruct (f x); constructor; assumption.
Qed.

(** The title filter alone, whatever the string (the empty one included:
    the handler then skips the filter, and every title contains it). *)
Lemma getTasks_title s tasks :
  getTasks toLowerCase {| q_title := QString s; q_date := QUndefined |} tasks
  = json (BTasks (List.filter (titleMatches toLowerCase s) tasks)).
Proof.
  unfold getTasks. simpl. destruct s as [|c s]; simpl; [|reflexivity].
  rewrite filter_all; [reflexivity|].
  intros t. unfold titleMatches. rewrite toLowerCase_empty.
  apply JSFacts.includes_nil.
Qed.

(** C5. [GET /tasks?title=s] answers 200 with exactly the stored tasks
    whose lower-cased title contains the lower-cased [s], kept in storage
    order: a task is in the answer if and only if it is stored and
    matches. *)
Theorem getTasks_title_exact (s : jsstring) (tasks : list Task.t) :
  exists result,
    getTasks toLowerCase {| q_title := QString s; q_date := QUndefined |} tasks
    = {| code := 200; body := BTasks result |}
    /\ result `sublist_of` tasks
    /\ forall t, t ∈ result <->
         t ∈ tasks
         /\ JS.occursIn (toLowerCase s) (toLowerCase (Task.title t)).
Proof.
  exists (List.filter (titleMatches toLowerCase s) tasks).
  split; [apply getTasks_title|]. split; [apply filter_sublist|].
  intros t. rewrite elem_of_filter. unfold titleMatches.
  rewrite JSFacts.includes_occursIn. reflexivity.
Qed.

End ListFacts.

(** ** Creating a task *)

(** C3. A POST whose title is absent, empty or blank is answered with 400
    and leaves the collection as it was, whatever the rest of the body. *)
Theorem postTask_blank_title (nid now : jsstring) (b : Partial.t) (tasks : list Task.t) :
  Partial.title b = None
  \/ Partial.title b = Some []
  \/ (exists s, Partial.title b = Some s /\ JS.blank s) ->
  code (snd (postTask nid now b tasks)) = 400
  /\ fst (postTask nid now b tasks) = tasks.
Proof.
  intros H. unfold postTask.
  assert (titleMissing (Partial.title b) = true) as ->; [|split; reflexivity].
  destruct H as [-> | [-> | [s [-> Hs]]]]; simpl; try reflexivity.
  apply JSFacts.truthy_trim_false in Hs. rewrite Hs.
  apply orb_true_r.
Qed.

Lemma postTask_blank_title_witness :
  let b := Partial.mk None (Some (JS.lit "   ")) None (Some Bug) (Some ToDo) (Some Low) None in
  code (snd (postTask (JS.lit "n1") (JS.lit "2025-08-01T00:00:00Z") b seed)) = 400
  /\ fst (postTask (JS.lit "n1") (JS.lit "2025-08-01T00:00:00Z") b seed) = seed.
Proof.
  apply postTask_blank_title. right. right.
  exists (JS.lit "   "). split; [reflexivity|].
  repeat constructor.
Defined.

Lemma titleMissing_false title :
  titleMissing title = false -> exists s, title = Some s /\ JS.trim s <> [].
Proof.
  destruct title as [s|]; simpl; [|discriminate].
  intros H. apply orb_false_elim in H as [_ H].
  exists s. split; [reflexivity|].
  intros E. rewrite E in H. discriminate.
Qed.

(** The three outcomes of a POST. *)
Lemma postTask_cases nid now b tasks :
  (code (snd (postTask nid now b tasks)) = 400 /\ fst (postTask nid now b tasks) = tasks)
  \/ exists title category status priority,
       Partial.title b = Some title /\ JS.trim title <> []
       /\ Partial.category b = Some category
       /\ Partial.status b = Some status
       /\ Partial.priority b = Some priority
       /\ postTask nid now b tasks =
          let newTask :=
            Task.mk nid (JS.trim title)
              (Some (descriptionOrEmpty (Partial.description b)))
              category status priority now in
          (tasks ++ [newTask], status_json 201 (BTask newTask)).
Proof.
  unfold postTask.
  destruct (titleMissing (Partial.title b)) eqn:Hm; [left; split; reflexivity|].
  apply titleMissing_false in Hm as [title [Ht Hne]]. rewrite Ht.
  destruct (Partial.category b) as [category|]; [|left; split; reflexivity].
  destruct (Partial.status b) as [status|]; [|left; split; reflexivity].
  destruct (Partial.priority b) as [priority|]; [|left; split; reflexivity].
  right. exists title, category, status, priority. auto 10.
Qed.

(** ** Updating a task *)

(** C7. A PATCH on an id that no stored task carries is answered with 404
    and leaves the collection as it was. *)
Theorem patchTask_absent (id : jsstring) (updates : Partial.t) (tasks : list Task.t) :
  id ∉ ids tasks ->
  code (snd (patchTask id updates tasks)) = 404
  /\ fst (patchTask id updates tasks) = tasks.
Proof.
  intros H. apply lookupId_None in H.
  unfold patchTask. rewrite H. split; reflexivity.
Qed.

Lemma patchTask_absent_witness :
  code (snd (patchTask (JS.lit "3") (Partial.mk None None None None (Some Done) None None) seed)) = 404
  /\ fst (patchTask (JS.lit "3") (Partial.mk None None None None (Some Done) None None) seed) = seed.
Proof.
  apply patchTask_absent. decide_by_running.
Defined.

(** A PATCH that finds its id and passes the title check. *)
Lemma patchTask_found id updates tasks k t :
  lookupId id tasks = Some (k, t) ->
  titleBlank (Partial.title updates) = false ->
  patchTask id updates tasks
  = (<[k := spread t updates]> tasks, json (BTask (spread t updates))).
Proof. intros Hl Hb. unfold patchTask. rewrite Hl, Hb. reflexivity. Qed.

(** The three outcomes of a PATCH. *)
Lemma patchTask_cases id updates tasks :
  ((id ∉ ids tasks) /\ patchTask id updates tasks = (tasks, status_json 404 taskNotFound))
  \/ (titleBlank (Partial.title updates) = true
      /\ patchTask id updates tasks = (tasks, status_json 400 titleEmpty))
  \/ exists k t,
       lookupId id tasks = Some (k, t)
       /\ titleBlank (Partial.title updates) = false
       /\ patchTask id updates tasks
          = (<[k := spread t updates]> tasks, json (BTask (spread t updates))).
Proof.
  unfold patchTask.
  destruct (lookupId id tasks) as [[k t]|] eqn:Hl.
  - destruct (titleBlank (Partial.title updates)) eqn:Hb; [auto|].
    right. right. exists k, t. auto.
  - left. split; [apply lookupId_None, Hl | reflexivity].
Qed.

(** What a PATCH answered with 200 has done: it found the first stored task
    with the id, and stored and returned that task overlaid with the body. *)
Lemma patchTask_200 id updates tasks :
  code (snd (patchTask id updates tasks)) = 200 ->
  exists k t,
    lookupId id tasks = Some (k, t)
    /\ patchTask id updates tasks
       = (<[k := spread t updates]> tasks, json (BTask (spread t updates))).
Proof.
  intros Hc.
  destruct (patchTask_cases id updates tasks)
    as [[_ H] | [[_ H] | (k & t & Hl & _ & H)]];
    try (rewrite H in Hc; discriminate).
  eauto.
Qed.

(** C1, as amended. A PATCH answered with 200 returns and stores, in the
    place of the task its id found, a task whose id is the body's id when
    the body has one and the stored id otherwise, and likewise for
    createdAt: both are kept exactly when the body leaves them out. *)
Theorem patchTask_id_createdAt (id : jsstring) (updates : Partial.t) (tasks : list Task.t) :
  code (snd (patchTask id updates tasks)) = 200 ->
  exists k t merged,
    lookupId id tasks = Some (k, t)
    /\ patchTask id updates tasks
       = (<[k := merged]> tasks, {| code := 200; body := BTask merged |})
    /\ Task.id merged = default (Task.id t) (Partial.id updates)
    /\ Task.createdAt merged = default (Task.createdAt t) (Partial.createdAt updates)
    /\ (Partial.id updates = None -> Task.id merged = Task.id t)
    /\ (Partial.createdAt updates = None -> Task.createdAt merged = Task.createdAt t).
Proof.
  intros Hc. destruct (patchTask_200 _ _ _ Hc) as (k & t & Hl & Hp).
  exists k, t, (spread t updates). repeat split; try assumption.
  - intros H. simpl. rewrite H. reflexivity.
  - intros H. simpl. rewrite H. reflexivity.
Qed.

Lemma patchTask_id_createdAt_witness :
  let updates := Partial.mk None (Some (JS.lit "Fix UI")) None None (Some Done) None None in
  exists k t merged,
    lookupId (JS.lit "1") seed = Some (k, t)
    /\ patchTask (JS.lit "1") updates seed
       = (<[k := merged]> seed, {| code := 200; body := BTask merged |})
    /\ Task.id merged = default (Task.id t) (Partial.id updates)
    /\ Task.createdAt merged = default (Task.createdAt t) (Partial.createdAt updates)
    /\ (Partial.id updates = None -> Task.id merged = Task.id t)
    /\ (Partial.createdAt updates = None -> Task.createdAt merged = Task.createdAt t).
Proof.
  apply patchTask_id_createdAt. reflexivity.
Defined.

(** C1 fails as stated: on the seed, a PATCH on id 1 whose body carries
    an id and a createdAt returns the first task under the body's id and
    createdAt. *)
Lemma patchTask_overrides_id_createdAt :
  let updates :=
    Partial.mk (Some (JS.lit "2")) None None None None None
      (Some (JS.lit "1999-12-31T23:59:59Z")) in
  exists t merged,
    seed !! 0%nat = Some t
    /\ Task.id t = JS.lit "1"
    /\ Task.createdAt t = JS.lit "2025-07-15T09:00:00Z"
    /\ snd (patchTask (Task.id t) updates seed) = {| code := 200; body := BTask merged |}
    /\ fst (patchTask (Task.id t) updates seed) !! 0%nat = Some merged
    /\ Task.id merged = JS.lit "2"
    /\ Task.createdAt merged = JS.lit "1999-12-31T23:59:59Z"
    /\ Task.id merged <> Task.id t
    /\ Task.createdAt merged <> Task.createdAt t.
Proof.
  eexists _, _. split; [reflexivity|].
  repeat split; try reflexivity; vm_compute; discriminate.
Qed.

(** C4, as amended. For a stored task that is the first one carrying its
    id (any stored task, when ids are pairwise distinct), a PATCH on that id
    whose body has only a status is answered with 200 and that task under
    the new status, every other field as it was; the store has this task
    in the old one's place and is otherwise the same. *)
Theorem patchTask_status_only
    (tasks : list Task.t) (k : nat) (t : Task.t) (s : TaskStatus) :
  lookupId (Task.id t) tasks = Some (k, t) ->
  exists merged,
    patchTask (Task.id t) (statusOnly s) tasks
    = (<[k := merged]> tasks, {| code := 200; body := BTask merged |})
    /\ Task.status merged = s
    /\ Task.id merged = Task.id t
    /\ Task.title merged = Task.title t
    /\ Task.description merged = Task.description t
    /\ Task.category merged = Task.category t
    /\ Task.priority merged = Task.priority t
    /\ Task.createdAt merged = Task.createdAt t.
Proof.
  intros Hl. exists (spread t (statusOnly s)).
  split; [|repeat split].
  apply patchTask_found; [assumption | reflexivity].
Qed.

Lemma patchTask_status_only_witness :
  exists t merged,
    seed !! 3%nat = Some t
    /\ patchTask (Task.id t) (statusOnly Done) seed
       = (<[3%nat := merged]> seed, {| code := 200; body := BTask merged |})
    /\ Task.status merged = Done
    /\ Task.id merged = Task.id t
    /\ Task.title merged = Task.title t
    /\ Task.description merged = Task.description t
    /\ Task.category merged = Task.category t
    /\ Task.priority merged = Task.priority t
    /\ Task.createdAt merged = Task.createdAt t.
Proof.
  eexists _. 
  destruct (patchTask_status_only seed 3
              (Task.mk (JS.lit "5") (JS.lit "Fix login redirect bug")
                 (Some (JS.lit "Users are not redirected properly after logging in."))
                 Bug InProgress Medium (JS.lit "2025-07-17T11:10:00Z"))
              Done eq_refl) as [merged H].
  exists merged. split; [reflexivity | exact H].
Defined.

(** With pairwise distinct ids, C4 holds of every stored task. *)
Corollary patchTask_status_only_NoDup tasks t s :
  NoDup (ids tasks) -> t ∈ tasks ->
  exists k,
    patchTask (Task.id t) (statusOnly s) tasks
    = (<[k := spread t (statusOnly s)]> tasks, json (BTask (spread t (statusOnly s))))
    /\ tasks !! k = Some t.
Proof.
  intros Hnd Hin. destruct (lookupId_NoDup _ _ Hnd Hin) as [k Hl].
  exists k. split.
  - apply patchTask_found; [assumption | reflexivity].
  - apply lookupId_Some in Hl. tauto.
Qed.

(** C4 fails as stated once two stored tasks share an id, which a PATCH
    carrying an id brings about: after [PATCH /tasks/2] with body
    [{ id: "1" }] on the seed, the second stored task has id 1, and a
    status-only PATCH on its id answers with the first task, not with it. *)
Lemma patchTask_status_only_shadowed :
  let tasks := run [Update (JS.lit "2") (Partial.mk (Some (JS.lit "1")) None None None None None None)] seed in
  exists t returned,
    tasks !! 1%nat = Some t
    /\ Task.id t = JS.lit "1"
    /\ Task.title t = JS.lit "Add unit tests"
    /\ snd (patchTask (Task.id t) (statusOnly Done) tasks) = {| code := 200; body := BTask returned |}
    /\ Task.title returned = JS.lit "Fix UI glitches"
    /\ Task.title returned <> Task.title t
    /\ fst (patchTask (Task.id t) (statusOnly Done) tasks) !! 1%nat = Some t.
Proof.
  eexists _, _. split; [reflexivity|].
  repeat split; try reflexivity. vm_compute. discriminate.
Qed.

(** ** Deleting a task *)

Lemma deleteTask_found id tasks k t :
  lookupId id tasks = Some (k, t) ->
  deleteTask id tasks = (delete k tasks, status_json 204 BNone).
Proof. intros Hl. unfold deleteTask, findIndex. rewrite Hl. reflexivity. Qed.

Lemma deleteTask_absent id tasks :
  id ∉ ids tasks -> deleteTask id tasks = (tasks, status_json 404 taskNotFound).
Proof.
  intros H. apply lookupId_None in H.
  unfold deleteTask, findIndex. rewrite H. reflexivity.
Qed.

Lemma getTask_absent id tasks :
  id ∉ ids tasks -> getTask id tasks = status_json 404 taskNotFound.
Proof.
  intros H. apply lookupId_None in H.
  unfold getTask, find. rewrite H. reflexivity.
Qed.

Section Distinct.

Context {A : Type}.
Implicit Types (l : list A) (x : A) (k : nat).

Lemma NoDup_middle l1 x l2 :
  NoDup (l1 ++ x :: l2) <->
  NoDup (l1 ++ l2) /\ (x ∉ l1) /\ (x ∉ l2).
Proof.
  rewrite !NoDup_app, NoDup_cons. split.
  - intros (H1 & H2 & H3 & H4). repeat split; try assumption.
    + intros y Hy Hy'. apply (H2 y Hy). right. assumption.
    + intros Hx. apply (H2 x Hx). left.
  - intros ((H1 & H2 & H3) & H4 & H5). repeat split; try assumption.
    intros y Hy [->|Hy']%elem_of_cons; [contradiction|].
    apply (H2 y Hy Hy').
Qed.

(** Removing one element of a duplicate-free list removes its value. *)
Lemma NoDup_delete_gone l k x :
  NoDup l -> l !! k = Some x -> x ∉ delete k l.
Proof.
  intros Hnd Hk. rewrite delete_take_drop.
  rewrite <- (take_drop_middle l k x Hk) in Hnd.
  apply NoDup_middle in Hnd as (_ & H1 & H2).
  rewrite elem_of_app. tauto.
Qed.

Lemma NoDup_delete l k : NoDup l -> NoDup (delete k l).
Proof. intros Hnd. eapply sublist_NoDup; [exact Hnd | apply sublist_delete]. Qed.

(** Overwriting a slot with a value the list does not hold. *)
Lemma NoDup_insert_fresh l k x :
  NoDup l -> x ∉ l -> NoDup (<[k := x]> l).
Proof.
  intros Hnd Hx. destruct (l !! k) as [y|] eqn:Hk.
  - rewrite insert_take_drop by (eapply lookup_lt_Some; eassumption).
    rewrite <- (take_drop_middle l k y Hk) in Hnd, Hx.
    apply NoDup_middle in Hnd as (Hnd & _ & _).
    apply NoDup_middle. repeat split; [assumption| |];
      intros Hin; apply Hx; rewrite elem_of_app, elem_of_cons; tauto.
  - rewrite list_insert_ge; [assumption|].
    apply lookup_ge_None. assumption.
Qed.

End Distinct.

(** C8. In a collection with pairwise distinct ids, deleting a stored id is
    answered with 204, and a GET on the same id right after it with 404. *)
Theorem deleteTask_then_getTask (id : jsstring) (tasks : list Task.t) :
  NoDup (ids tasks) ->
  id ∈ ids tasks ->
  code (snd (deleteTask id tasks)) = 204
  /\ code (getTask id (fst (deleteTask id tasks))) = 404.
Proof.
  intros Hnd Hin.
  destruct (lookupId_is_Some _ _ Hin) as [[k t] Hl].
  rewrite (deleteTask_found _ _ _ _ Hl). simpl. split; [reflexivity|].
  rewrite getTask_absent; [reflexivity|].
  unfold ids. rewrite list_fmap_delete.
  apply NoDup_delete_gone; [assumption|].
  eapply lookupId_ids. eassumption.
Qed.

Lemma seed_ids_NoDup : NoDup (ids seed).
Proof. decide_by_running. Qed.

Lemma deleteTask_then_getTask_witness :
  code (snd (deleteTask (JS.lit "4") seed)) = 204
  /\ code (getTask (JS.lit "4") (fst (deleteTask (JS.lit "4") seed))) = 404.
Proof.
  apply deleteTask_then_getTask.
  - decide_by_running.
  - decide_by_running.
Defined.

(** ** Invariants of the collection *)

Lemma seed_titles : Forall titleOk seed.
Proof. repeat constructor; vm_compute; discriminate. Qed.

Lemma titleBlank_false title s :
  titleBlank title = false -> title = Some s -> JS.trim s <> [].
Proof. intros H -> E. simpl in H. rewrite E in H. discriminate. Qed.

Lemma spread_titleOk t updates :
  titleOk t -> titleBlank (Partial.title updates) = false -> titleOk (spread t updates).
Proof.
  unfold titleOk. intros Ht Hb. simpl.
  destruct (Partial.title updates) as [s|] eqn:E; simpl; [|assumption].
  eapply titleBlank_false; [eassumption | reflexivity].
Qed.

Lemma step_titles op tasks :
  Forall titleOk tasks -> Forall titleOk (fst (step op tasks)).
Proof.
  intros Hinv. destruct op as [nid now b | id updates | id]; simpl.
  - destruct (postTask_cases nid now b tasks)
      as [[_ ->] | (title & c & s & p & _ & Hne & _ & _ & _ & ->)]; [assumption|].
    simpl. apply Forall_app. split; [assumption|].
    constructor; [|constructor].
    unfold titleOk. simpl. rewrite JSFacts.trim_trim_nil. assumption.
  - destruct (patchTask_cases id updates tasks)
      as [[_ ->] | [[_ ->] | (k & t & Hl & Hb & ->)]]; try assumption.
    simpl. apply Forall_insert; [assumption|].
    apply spread_titleOk; [|assumption].
    apply lookupId_Some in Hl as (Hk & _).
    eapply Forall_lookup_1; eassumption.
  - unfold deleteTask. destruct (findIndex id tasks); simpl; [|assumption].
    apply Forall_delete. assumption.
Qed.

Lemma run_titles ops tasks :
  Forall titleOk tasks -> Forall titleOk (run ops tasks).
Proof.
  revert tasks. induction ops as [|op ops IH]; intros tasks Hinv; simpl.
  - assumption.
  - apply IH, step_titles, Hinv.
Qed.

(** C9. Whatever sequence of create, update and delete requests the server
    has served since start-up, every stored title is non-empty after
    trimming. *)
Theorem titles_nonblank (ops : list Op) :
  Forall (fun t => JS.trim (Task.title t) <> []) (run ops seed).
Proof. apply (run_titles ops seed), seed_titles. Qed.

Lemma step_ids op tasks :
  NoDup (ids tasks) -> keepsIdsDistinct op tasks -> NoDup (ids (fst (step op tasks))).
Proof.
  intros Hnd Hop. destruct op as [nid now b | id updates | id]; simpl in *.
  - destruct (postTask_cases nid now b tasks)
      as [[_ ->] | (title & c & s & p & _ & _ & _ & _ & _ & ->)]; [assumption|].
    simpl. unfold ids. rewrite fmap_app. simpl.
    apply NoDup_app. repeat split; [assumption | | apply NoDup_singleton].
    intros x Hx ->%list_elem_of_singleton. contradiction.
  - destruct (patchTask_cases id updates tasks)
      as [[_ ->] | [[_ ->] | (k & t & Hl & _ & ->)]]; try assumption.
    simpl. unfold ids. rewrite list_fmap_insert. fold (ids tasks).
    pose proof (lookupId_ids _ _ _ _ Hl) as Hk.
    pose proof Hl as (_ & Hid & _)%lookupId_Some.
    simpl. destruct (Partial.id updates) as [id'|]; simpl.
    + destruct Hop as [-> | Hfresh].
      * rewrite list_insert_id; assumption.
      * apply NoDup_insert_fresh; assumption.
    + rewrite Hid, list_insert_id; assumption.
  - unfold deleteTask. destruct (findIndex id tasks); simpl; [|assumption].
    unfold ids. rewrite list_fmap_delete. apply NoDup_delete. assumption.
Qed.

Lemma run_ids ops tasks :
  NoDup (ids tasks) -> allKeepIdsDistinct ops tasks -> NoDup (ids (run ops tasks)).
Proof.
  revert tasks. induction ops as [|op ops IH]; intros tasks Hnd Hops; simpl in *.
  - assumption.
  - destruct Hops as [Hop Hrest]. apply IH; [|assumption].
    apply step_ids; assumption.
Qed.

(** C2, as amended. The ids of the stored tasks are pairwise distinct after
    any sequence of create, update and delete requests in which every
    generated id is new to the collection and every PATCH body that carries
    an id carries the addressed id or one no stored task has. *)
Theorem ids_distinct (ops : list Op) :
  allKeepIdsDistinct ops seed -> NoDup (ids (run ops seed)).
Proof. apply run_ids, seed_ids_NoDup. Qed.

Lemma ids_distinct_witness :
  let ops :=
    [ Create (JS.lit "V1StGXR8") (JS.lit "2025-08-01T00:00:00Z")
        (Partial.mk None (Some (JS.lit "Write changelog")) None
           (Some Documentation) (Some ToDo) (Some Low) None);
      Update (JS.lit "1")
        (Partial.mk (Some (JS.lit "9")) None None None (Some Done) None None);
      Delete (JS.lit "2") ] in
  allKeepIdsDistinct ops seed /\ NoDup (ids (run ops seed)).
Proof.
  assert (allKeepIdsDistinct
    [ Create (JS.lit "V1StGXR8") (JS.lit "2025-08-01T00:00:00Z")
        (Partial.mk None (Some (JS.lit "Write changelog")) None
           (Some Documentation) (Some ToDo) (Some Low) None);
      Update (JS.lit "1")
        (Partial.mk (Some (JS.lit "9")) None None None (Some Done) None None);
      Delete (JS.lit "2") ] seed) as H.
  { simpl. repeat split; [| right]; decide_by_running. }
  split; [exact H | exact (ids_distinct _ H)].
Defined.

(** C2 fails as stated: on the seed, [PATCH /tasks/1] with body
    [{ id: "2" }] is answered with 200 and leaves two stored tasks with
    id 2. *)
Lemma ids_not_distinct :
  let ops := [Update (JS.lit "1") (Partial.mk (Some (JS.lit "2")) None None None None None None)] in
  code (snd (step (Update (JS.lit "1") (Partial.mk (Some (JS.lit "2")) None None None None None None)) seed)) = 200
  /\ ids (run ops seed) = [JS.lit "2"; JS.lit "2"; JS.lit "4"; JS.lit "5"; JS.lit "7"]
  /\ ~ NoDup (ids (run ops seed)).
Proof.
  split; [reflexivity|]. split; [reflexivity|].
  intros H. vm_compute in H. apply NoDup_cons_1_1 in H.
  apply H. left.
Qed.

Lemma getTasks_title_exact_witness :
  JS.asciiLower [] = []
  /\ exists result,
       getTasks JS.asciiLower {| q_title := QString (JS.lit "BUG"); q_date := QUndefined |} seed
       = {| code := 200; body := BTasks result |}
       /\ result `sublist_of` seed
       /\ forall t, t ∈ result <->
            t ∈ seed
            /\ JS.occursIn (JS.asciiLower (JS.lit "BUG")) (JS.asciiLower (Task.title t)).
Proof.
  split; [reflexivity|].
  apply (getTasks_title_exact JS.asciiLower eq_refl).
Defined.

(** ** Where a lookup lands *)

Section Split.

Implicit Types (tasks : list Task.t) (i : jsstring) (t : Task.t) (k : nat).

Lemma lookupId_cons i t tasks :
  lookupId i (t :: tasks)
  = if decide (Task.id t = i) then Some (0%nat, t)
    else prod_map S (fun x => x) <$> lookupId i tasks.
Proof. reflexivity. Qed.

Lemma find_cons i t tasks :
  find i (t :: tasks) = if decide (Task.id t = i) then Some t else find i tasks.
Proof.
  unfold find. rewrite lookupId_cons. case_decide; [reflexivity|].
  destruct (lookupId i tasks) as [[k y]|]; reflexivity.
Qed.

Lemma ids_cons t tasks : ids (t :: tasks) = Task.id t :: ids tasks.
Proof. reflexivity. Qed.

(** A successful lookup cuts the store in three: the tasks before the one
    found, none of which has the id, that task, and the rest. *)
Lemma lookupId_split i tasks k t :
  lookupId i tasks = Some (k, t) ->
  exists l1 l2,
    tasks = l1 ++ t :: l2 /\ k = length l1 /\ Task.id t = i /\ i ∉ ids l1.
Proof.
  revert k. induction tasks as [|x tasks IH]; intros k; [discriminate|].
  rewrite lookupId_cons. case_decide as Hx.
  - intros [= <- <-]. exists [], tasks. repeat split; [assumption|].
    apply not_elem_of_nil.
  - destruct (lookupId i tasks) as [[k' t']|]; [|discriminate].
    intros [= <- <-].
    destruct (IH k' eq_refl) as (l1 & l2 & -> & -> & Hid & Hn).
    exists (x :: l1), l2. repeat split; [assumption|].
    rewrite ids_cons. apply not_elem_of_cons. split; [congruence | assumption].
Qed.

Lemma lookupId_middle i l1 t l2 :
  Task.id t = i -> i ∉ ids l1 ->
  lookupId i (l1 ++ t :: l2) = Some (length l1, t).
Proof.
  intros Hid. induction l1 as [|x l1 IH]; intros Hn; cbn [app length].
  - rewrite lookupId_cons. case_decide; [reflexivity | contradiction].
  - rewrite ids_cons in Hn. apply not_elem_of_cons in Hn as [Hx Hn].
    rewrite lookupId_cons. case_decide; [congruence|].
    rewrite (IH Hn). reflexivity.
Qed.

Lemma find_app_l i l1 l2 : i ∈ ids l1 -> find i (l1 ++ l2) = find i l1.
Proof.
  induction l1 as [|x l1 IH]; intros Hin; cbn [app].
  - apply elem_of_nil in Hin. contradiction.
  - rewrite !find_cons. case_decide as Hx; [reflexivity|].
    rewrite ids_cons in Hin.
    apply elem_of_cons in Hin as [Hin | Hin]; [congruence | auto].
Qed.

Lemma find_app_r i l1 l2 : i ∉ ids l1 -> find i (l1 ++ l2) = find i l2.
Proof.
  induction l1 as [|x l1 IH]; intros Hn; cbn [app]; [reflexivity|].
  rewrite ids_cons in Hn. apply not_elem_of_cons in Hn as [Hx Hn].
  rewrite find_cons. case_decide; [congruence | auto].
Qed.

(** A task with another id, wherever it sits, does not bear on [find]. *)
Lemma find_middle_ne i l1 t l2 :
  Task.id t <> i -> find i (l1 ++ t :: l2) = find i (l1 ++ l2).
Proof.
  intros Hne. destruct (decide (i ∈ ids l1)) as [Hin | Hn].
  - rewrite !find_app_l by assumption. reflexivity.
  - rewrite !find_app_r by assumption. rewrite find_cons.
    case_decide; [contradiction | reflexivity].
Qed.

Lemma find_middle i l1 t l2 :
  Task.id t = i -> i ∉ ids l1 -> find i (l1 ++ t :: l2) = Some t.
Proof.
  intros Hid Hn. unfold find. rewrite lookupId_middle by assumption. reflexivity.
Qed.

Lemma insert_middle {A} (l1 : list A) x y l2 :
  <[length l1 := y]> (l1 ++ x :: l2) = l1 ++ y :: l2.
Proof. induction l1 as [|z l1 IH]; simpl; [reflexivity | rewrite IH; reflexivity]. Qed.

Lemma getTask_find i tasks tasks' :
  find i tasks = find i tasks' -> getTask i tasks = getTask i tasks'.
Proof. unfold getTask. intros ->. reflexivity. Qed.

End Split.

Lemma spread_idem t updates : spread (spread t updates) updates = spread t updates.
Proof.
  destruct updates as [[?|] [?|] [?|] [?|] [?|] [?|] [?|]]; reflexivity.
Qed.

Lemma spread_empty t : spread t Partial.empty = t.
Proof. destruct t. reflexivity. Qed.

Lemma spread_id t updates i :
  Task.id t = i ->
  Partial.id updates = None \/ Partial.id updates = Some i ->
  Task.id (spread t updates) = i.
Proof. intros Hid [H | H]; simpl; rewrite H; simpl; congruence. Qed.

(** ** Reading one task *)

(** X1. GET on an id answers 200 with the first stored task carrying the id
    when there is one, and 404 otherwise. *)
Theorem getTask_outcome (id : jsstring) (tasks : list Task.t) :
  (exists l1 t l2,
     tasks = l1 ++ t :: l2 /\ Task.id t = id /\ (id ∉ ids l1)
     /\ getTask id tasks = {| code := 200; body := BTask t |})
  \/ ((id ∉ ids tasks) /\ getTask id tasks = {| code := 404; body := taskNotFound |}).
Proof.
  destruct (lookupId id tasks) as [[k t]|] eqn:Hl.
  - left. destruct (lookupId_split _ _ _ _ Hl) as (l1 & l2 & Ht & _ & Hid & Hn).
    exists l1, t, l2. repeat split; try assumption.
    unfold getTask, find. rewrite Hl. reflexivity.
  - right. apply lookupId_None in Hl. split; [assumption|].
    apply getTask_absent. assumption.
Qed.

(** ** More on creating a task *)

(** X3. When the generated id is not yet in the collection, a POST answered
    with 201 can be read back: a GET on the id of the created task answers
    200 with that task. *)
Theorem postTask_then_getTask (nid now : jsstring) (b : Partial.t) (tasks : list Task.t) :
  nid ∉ ids tasks ->
  code (snd (postTask nid now b tasks)) = 201 ->
  exists newTask,
    snd (postTask nid now b tasks) = {| code := 201; body := BTask newTask |}
    /\ Task.id newTask = nid
    /\ getTask (Task.id newTask) (fst (postTask nid now b tasks))
       = {| code := 200; body := BTask newTask |}.
Proof.
  intros Hfresh Hc.
  destruct (postTask_cases nid now b tasks)
    as [[H400 _] | (s & c & st & p & _ & _ & _ & _ & _ & Hp)].
  { rewrite H400 in Hc. discriminate. }
  cbv zeta in Hp. rewrite Hp. eexists. split; [reflexivity|]. split; [reflexivity|].
  cbn [fst Task.id]. unfold getTask.
  rewrite find_app_r by assumption. rewrite find_cons.
  case_decide; [reflexivity | contradiction].
Qed.

Lemma postTask_then_getTask_witness :
  let b := Partial.mk None (Some (JS.lit "Ship it")) None (Some Feature) (Some ToDo) (Some High) None in
  exists newTask,
    snd (postTask (JS.lit "V1StGXR8") (JS.lit "2025-08-01T00:00:00Z") b seed)
    = {| code := 201; body := BTask newTask |}
    /\ Task.id newTask = JS.lit "V1StGXR8"
    /\ getTask (Task.id newTask)
         (fst (postTask (JS.lit "V1StGXR8") (JS.lit "2025-08-01T00:00:00Z") b seed))
       = {| code := 200; body := BTask newTask |}.
Proof.
  apply postTask_then_getTask; [decide_by_running | reflexivity].
Defined.

(** X4. The id and the creation time of a created task are the server's:
    an id or a createdAt in the body of a POST changes neither the response
    nor the collection, and the task created carries the generated id, the
    current time and the body's category, status and priority. *)
Theorem postTask_server_assigned
    (nid now : jsstring) (b : Partial.t) (tasks : list Task.t)
    (id' createdAt' : option jsstring) :
  postTask nid now
    (Partial.mk id' (Partial.title b) (Partial.description b) (Partial.category b)
       (Partial.status b) (Partial.priority b) createdAt') tasks
  = postTask nid now b tasks
  /\ forall newTask,
       snd (postTask nid now b tasks) = {| code := 201; body := BTask newTask |} ->
       Task.id newTask = nid
       /\ Task.createdAt newTask = now
       /\ Partial.category b = Some (Task.category newTask)
       /\ Partial.status b = Some (Task.status newTask)
       /\ Partial.priority b = Some (Task.priority newTask).
Proof.
  split; [reflexivity|].
  intros newTask Hr.
  destruct (postTask_cases nid now b tasks)
    as [[H400 _] | (s & c & st & p & _ & _ & Hc & Hst & Hp & Heq)].
  { rewrite Hr in H400. discriminate. }
  cbv zeta in Heq. rewrite Heq in Hr. injection Hr as <-.
  rewrite Hc, Hst, Hp. repeat split.
Qed.

(** X5. A POST never changes what a GET on an id already in the collection
    answers, not even when the generated id repeats a stored one: the new
    task goes last and a lookup stops at the first match. *)
Theorem postTask_keeps_getTask
    (nid now : jsstring) (b : Partial.t) (tasks : list Task.t) (id : jsstring) :
  id ∈ ids tasks ->
  getTask id (fst (postTask nid now b tasks)) = getTask id tasks.
Proof.
  intros Hin.
  destruct (postTask_cases nid now b tasks)
    as [[_ ->] | (s & c & st & p & _ & _ & _ & _ & _ & ->)]; [reflexivity|].
  cbn [fst]. apply getTask_find, find_app_l, Hin.
Qed.

Lemma postTask_keeps_getTask_witness :
  let b := Partial.mk None (Some (JS.lit "Ship it")) None (Some Feature) (Some ToDo) (Some High) None in
  getTask (JS.lit "2") (fst (postTask (JS.lit "2") (JS.lit "2025-08-01T00:00:00Z") b seed))
  = getTask (JS.lit "2") seed.
Proof.
  apply postTask_keeps_getTask. decide_by_running.
Defined.

(** X6. The title of a created task is not empty and neither begins nor
    ends with a character that trimming strips. *)
Theorem postTask_title_trimmed (nid now : jsstring) (b : Partial.t) (tasks : list Task.t) :
  code (snd (postTask nid now b tasks)) = 201 ->
  exists newTask,
    snd (postTask nid now b tasks) = {| code := 201; body := BTask newTask |}
    /\ Task.title newTask <> []
    /\ (forall c r, Task.title newTask = c :: r -> JS.isTrimmed c = false)
    /\ (forall r c, Task.title newTask = r ++ [c] -> JS.isTrimmed c = false).
Proof.
  intros Hc.
  destruct (postTask_cases nid now b tasks)
    as [[H400 _] | (s & c & st & p & _ & Hne & _ & _ & _ & Hp)].
  { rewrite H400 in Hc. discriminate. }
  cbv zeta in Hp. rewrite Hp. eexists. split; [reflexivity|].
  cbn [Task.title]. split; [assumption|]. apply JSFacts.trim_ends.
Qed.

Lemma postTask_title_trimmed_witness :
  let b := Partial.mk None (Some (JS.lit "  Ship it  ")) None (Some Feature) (Some ToDo) (Some High) None in
  exists newTask,
    snd (postTask (JS.lit "V1StGXR8") (JS.lit "2025-08-01T00:00:00Z") b seed)
    = {| code := 201; body := BTask newTask |}
    /\ Task.title newTask <> []
    /\ (forall c r, Task.title newTask = c :: r -> JS.isTrimmed c = false)
    /\ (forall r c, Task.title newTask = r ++ [c] -> JS.isTrimmed c = false).
Proof.
  apply postTask_title_trimmed. reflexivity.
Defined.

(** ** More on updating a task *)

(** X7. A PATCH answered with 200 touches one task only: the first stored
    task carrying the id is replaced, where it stands, by itself overlaid
    with the body, and that merged task is the response; the tasks before
    and after it are as they were. *)
Theorem patchTask_in_place (id : jsstring) (updates : Partial.t) (tasks : list Task.t) :
  code (snd (patchTask id updates tasks)) = 200 ->
  exists l1 t l2,
    tasks = l1 ++ t :: l2
    /\ Task.id t = id
    /\ (id ∉ ids l1)
    /\ patchTask id updates tasks
       = (l1 ++ spread t updates :: l2, {| code := 200; body := BTask (spread t updates) |}).
Proof.
  intros Hc. destruct (patchTask_200 _ _ _ Hc) as (k & t & Hl & Hp).
  destruct (lookupId_split _ _ _ _ Hl) as (l1 & l2 & -> & -> & Hid & Hn).
  exists l1, t, l2. rewrite insert_middle in Hp. auto.
Qed.

Lemma patchTask_in_place_witness :
  let updates := Partial.mk None None (Some (JS.lit "Later")) None None (Some Low) None in
  exists l1 t l2,
    seed = l1 ++ t :: l2
    /\ Task.id t = JS.lit "4"
    /\ (JS.lit "4" ∉ ids l1)
    /\ patchTask (JS.lit "4") updates seed
       = (l1 ++ spread t updates :: l2, {| code := 200; body := BTask (spread t updates) |}).
Proof.
  apply patchTask_in_place. reflexivity.
Defined.

(** X8. A PATCH on a stored id whose body has a blank title is answered
    with 400 and changes nothing, whatever else the body carries. *)
Theorem patchTask_blank_title_rejected
    (id : jsstring) (updates : Partial.t) (tasks : list Task.t) (s : jsstring) :
  id ∈ ids tasks ->
  Partial.title updates = Some s ->
  JS.blank s ->
  patchTask id updates tasks = (tasks, {| code := 400; body := titleEmpty |}).
Proof.
  intros Hin Ht Hb.
  destruct (lookupId_is_Some _ _ Hin) as [[k t] Hl].
  unfold patchTask. rewrite Hl, Ht. simpl.
  apply JSFacts.truthy_trim_false in Hb. rewrite Hb. reflexivity.
Qed.

Lemma patchTask_blank_title_rejected_witness :
  patchTask (JS.lit "5")
    (Partial.mk None (Some (JS.lit "  ")) None None (Some Done) None None) seed
  = (seed, {| code := 400; body := titleEmpty |}).
Proof.
  apply (patchTask_blank_title_rejected _ _ _ (JS.lit "  "));
    [decide_by_running | reflexivity | repeat constructor].
Defined.

(** X9. Repeating a PATCH whose body leaves the id alone (no id, or the id
    addressed) changes nothing more: the second request gets the response
    of the first and leaves the collection the first produced. *)
Theorem patchTask_idempotent (id : jsstring) (updates : Partial.t) (tasks : list Task.t) :
  Partial.id updates = None \/ Partial.id updates = Some id ->
  patchTask id updates (fst (patchTask id updates tasks))
  = (fst (patchTask id updates tasks), snd (patchTask id updates tasks)).
Proof.
  intros Hu.
  destruct (patchTask_cases id updates tasks)
    as [[_ H] | [[_ H] | (k & t & Hl & Hb & H)]];
    try (rewrite H; exact H).
  rewrite H. cbn [fst snd].
  destruct (lookupId_split _ _ _ _ Hl) as (l1 & l2 & -> & -> & Hid & Hn).
  rewrite insert_middle.
  rewrite (patchTask_found id updates _ (length l1) (spread t updates)).
  - rewrite spread_idem, insert_middle. reflexivity.
  - apply lookupId_middle; [|assumption]. apply spread_id; assumption.
  - assumption.
Qed.

Lemma patchTask_idempotent_witness :
  let updates := Partial.mk None (Some (JS.lit "Fix UI")) None None (Some Done) None None in
  patchTask (JS.lit "1") updates (fst (patchTask (JS.lit "1") updates seed))
  = (fst (patchTask (JS.lit "1") updates seed), snd (patchTask (JS.lit "1") updates seed)).
Proof.
  apply patchTask_idempotent. left. reflexivity.
Defined.

(** X10. A PATCH with the empty body changes nothing and answers what a GET
    on the same id answers: the task, or 404. *)
Theorem patchTask_empty_body (id : jsstring) (tasks : list Task.t) :
  patchTask id Partial.empty tasks = (tasks, getTask id tasks).
Proof.
  unfold patchTask, getTask, find.
  destruct (lookupId id tasks) as [[k t]|] eqn:Hl; [|reflexivity].
  cbn [titleBlank Partial.title Partial.empty fmap option_fmap option_map snd].
  rewrite spread_empty. apply lookupId_Some in Hl as (Hk & _).
  rewrite list_insert_id by assumption. reflexivity.
Qed.

(** X11. After a PATCH answered with 200 whose body leaves the id alone, a
    GET on the id answers with the merged task the PATCH returned. *)
Theorem patchTask_then_getTask (id : jsstring) (updates : Partial.t) (tasks : list Task.t) :
  Partial.id updates = None \/ Partial.id updates = Some id ->
  code (snd (patchTask id updates tasks)) = 200 ->
  getTask id (fst (patchTask id updates tasks)) = snd (patchTask id updates tasks).
Proof.
  intros Hu Hc. destruct (patchTask_200 _ _ _ Hc) as (k & t & Hl & ->).
  destruct (lookupId_split _ _ _ _ Hl) as (l1 & l2 & -> & -> & Hid & Hn).
  cbn [fst snd]. rewrite insert_middle. unfold getTask.
  rewrite find_middle; [reflexivity | | assumption].
  apply spread_id; assumption.
Qed.

Lemma patchTask_then_getTask_witness :
  let updates := Partial.mk (Some (JS.lit "7")) None None None (Some ToDo) None None in
  getTask (JS.lit "7") (fst (patchTask (JS.lit "7") updates seed))
  = snd (patchTask (JS.lit "7") updates seed).
Proof.
  apply patchTask_then_getTask; [right; reflexivity | reflexivity].
Defined.

(** X12. A PATCH does not change what a GET on another id answers, unless
    its body carries that other id. *)
Theorem patchTask_keeps_other_ids
    (id id' : jsstring) (updates : Partial.t) (tasks : list Task.t) :
  id' <> id ->
  Partial.id updates <> Some id' ->
  getTask id' (fst (patchTask id updates tasks)) = getTask id' tasks.
Proof.
  intros Hne Hu.
  destruct (patchTask_cases id updates tasks)
    as [[_ ->] | [[_ ->] | (k & t & Hl & _ & ->)]]; try reflexivity.
  destruct (lookupId_split _ _ _ _ Hl) as (l1 & l2 & -> & -> & Hid & Hn).
  cbn [fst]. rewrite insert_middle. apply getTask_find.
  rewrite !find_middle_ne; [reflexivity | congruence |].
  simpl. destruct (Partial.id updates) as [j|]; simpl; congruence.
Qed.

Lemma patchTask_keeps_other_ids_witness :
  let updates := Partial.mk (Some (JS.lit "9")) (Some (JS.lit "Renamed")) None None None None None in
  getTask (JS.lit "2") (fst (patchTask (JS.lit "1") updates seed)) = getTask (JS.lit "2") seed.
Proof.
  apply patchTask_keeps_other_ids; vm_compute; discriminate.
Defined.

(** ** More on deleting a task *)

(** X13. A DELETE on a stored id is answered with 204 and an empty body and
    removes the first stored task carrying the id, nothing else: the tasks
    before and after it stay, in their order. *)
Theorem deleteTask_removes_first (id : jsstring) (tasks : list Task.t) :
  id ∈ ids tasks ->
  exists l1 t l2,
    tasks = l1 ++ t :: l2
    /\ Task.id t = id
    /\ (id ∉ ids l1)
    /\ deleteTask id tasks = (l1 ++ l2, {| code := 204; body := BNone |}).
Proof.
  intros Hin. destruct (lookupId_is_Some _ _ Hin) as [[k t] Hl].
  rewrite (deleteTask_found _ _ _ _ Hl).
  destruct (lookupId_split _ _ _ _ Hl) as (l1 & l2 & -> & -> & Hid & Hn).
  exists l1, t, l2. rewrite delete_middle. auto.
Qed.

Lemma deleteTask_removes_first_witness :
  exists l1 t l2,
    seed = l1 ++ t :: l2
    /\ Task.id t = JS.lit "5"
    /\ (JS.lit "5" ∉ ids l1)
    /\ deleteTask (JS.lit "5") seed = (l1 ++ l2, {| code := 204; body := BNone |}).
Proof.
  apply deleteTask_removes_first. decide_by_running.
Defined.

(** X14. A DELETE does not change what a GET on another id answers. *)
Theorem deleteTask_keeps_other_ids (id id' : jsstring) (tasks : list Task.t) :
  id' <> id ->
  getTask id' (fst (deleteTask id tasks)) = getTask id' tasks.
Proof.
  intros Hne. destruct (lookupId id tasks) as [[k t]|] eqn:Hl.
  - rewrite (deleteTask_found _ _ _ _ Hl).
    destruct (lookupId_split _ _ _ _ Hl) as (l1 & l2 & -> & -> & Hid & Hn).
    cbn [fst]. rewrite delete_middle. apply getTask_find.
    rewrite find_middle_ne; [reflexivity | congruence].
  - apply lookupId_None in Hl. rewrite deleteTask_absent by assumption.
    reflexivity.
Qed.

Lemma deleteTask_keeps_other_ids_witness :
  getTask (JS.lit "7") (fst (deleteTask (JS.lit "4") seed)) = getTask (JS.lit "7") seed.
Proof.
  apply deleteTask_keeps_other_ids. vm_compute. discriminate.
Defined.

(** X15. When two stored tasks carry the same id, a DELETE on it removes
    the first of them only, and a GET on the id then answers 200 with the
    second. *)
Theorem deleteTask_leaves_duplicate
    (id : jsstring) (l1 l2 l3 : list Task.t) (t t' : Task.t) :
  Task.id t = id ->
  Task.id t' = id ->
  id ∉ ids l1 ->
  id ∉ ids l2 ->
  deleteTask id (l1 ++ t :: l2 ++ t' :: l3)
  = (l1 ++ l2 ++ t' :: l3, {| code := 204; body := BNone |})
  /\ getTask id (fst (deleteTask id (l1 ++ t :: l2 ++ t' :: l3)))
     = {| code := 200; body := BTask t' |}.
Proof.
  intros Ht Ht' Hn1 Hn2.
  assert (deleteTask id (l1 ++ t :: l2 ++ t' :: l3)
          = (l1 ++ l2 ++ t' :: l3, status_json 204 BNone)) as Hd.
  { rewrite (deleteTask_found id _ (length l1) t).
    - rewrite delete_middle. reflexivity.
    - apply lookupId_middle; assumption. }
  rewrite Hd. split; [reflexivity|].
  cbn [fst]. unfold getTask.
  rewrite find_app_r by assumption.
  rewrite find_middle by assumption. reflexivity.
Qed.

Lemma deleteTask_leaves_duplicate_witness :
  let tasks :=
    run [Update (JS.lit "5") (Partial.mk (Some (JS.lit "2")) None None None None None None)] seed in
  ids tasks = [JS.lit "1"; JS.lit "2"; JS.lit "4"; JS.lit "2"; JS.lit "7"]
  /\ code (snd (deleteTask (JS.lit "2") tasks)) = 204
  /\ code (getTask (JS.lit "2") (fst (deleteTask (JS.lit "2") tasks))) = 200.
Proof.
  split; [reflexivity|].
  lazymatch eval cbv in
    (run [Update (JS.lit "5") (Partial.mk (Some (JS.lit "2")) None None None None None None)] seed)
  with
  | [?a; ?b; ?c; ?d; ?e] =>
      destruct (deleteTask_leaves_duplicate (JS.lit "2") [a] [c] [e] b d) as [Hd Hg];
        [reflexivity | reflexivity | decide_by_running | decide_by_running |]
  end.
  split; [exact (f_equal (fun r => code (snd r)) Hd) | exact (f_equal code Hg)].
Defined.

(** ** Renaming a task *)

(** X19. In a collection with pairwise distinct ids, a PATCH answered with
    200 whose body carries an id no stored task has moves the task to that
    id: a GET on the old id then answers 404, and a GET on the new id
    answers with the merged task the PATCH returned. *)
Theorem patchTask_renames
    (id id' : jsstring) (updates : Partial.t) (tasks : list Task.t) :
  NoDup (ids tasks) ->
  id' ∉ ids tasks ->
  Partial.id updates = Some id' ->
  code (snd (patchTask id updates tasks)) = 200 ->
  getTask id (fst (patchTask id updates tasks)) = {| code := 404; body := taskNotFound |}
  /\ getTask id' (fst (patchTask id updates tasks)) = snd (patchTask id updates tasks).
Proof.
  intros Hnd Hfresh Hu Hc. destruct (patchTask_200 _ _ _ Hc) as (k & t & Hl & ->).
  destruct (lookupId_split _ _ _ _ Hl) as (l1 & l2 & -> & -> & Hid & Hn).
  cbn [fst snd]. rewrite insert_middle.
  unfold ids in Hnd, Hfresh. rewrite fmap_app, fmap_cons in Hnd, Hfresh.
  fold (ids l1) in Hnd, Hfresh. fold (ids l2) in Hnd, Hfresh.
  apply NoDup_middle in Hnd as (_ & _ & Hn2). rewrite Hid in Hn2.
  apply not_elem_of_app in Hfresh as [Hf1 Hf2].
  apply not_elem_of_cons in Hf2 as [Hne Hf2].
  assert (Task.id (spread t updates) = id') as Hm.
  { simpl. rewrite Hu. reflexivity. }
  split.
  - apply getTask_absent. unfold ids. rewrite fmap_app, fmap_cons.
    apply not_elem_of_app. split; [assumption|].
    apply not_elem_of_cons. split; [|assumption]. congruence.
  - unfold getTask. rewrite find_middle by assumption. reflexivity.
Qed.

Lemma patchTask_renames_witness :
  let updates := Partial.mk (Some (JS.lit "3")) None None None None None None in
  getTask (JS.lit "4") (fst (patchTask (JS.lit "4") updates seed))
  = {| code := 404; body := taskNotFound |}
  /\ getTask (JS.lit "3") (fst (patchTask (JS.lit "4") updates seed))
     = snd (patchTask (JS.lit "4") updates seed).
Proof.
  apply patchTask_renames;
    [apply seed_ids_NoDup | decide_by_running | reflexivity | reflexivity].
Defined.

(** ** The server as it runs: facts *)

Module WireFacts.
Import Wire.

Lemma truthy_string s : truthy (Some (JString s)) = true <-> s <> [].
Proof. destruct s; simpl; split; congruence. Qed.

(** A truthy value is a string or makes [trim] throw. *)
Lemma trim_throws v :
  (forall s, v <> Some (JString s)) -> trim v = inl TypeError.
Proof.
  intros H. destruct v as [[| | |s| |]|]; try reflexivity.
  destruct (H s). reflexivity.
Qed.

Lemma filterExc_returns (f : jsobject -> Exc bool) (g : jsobject -> bool) l :
  Forall (fun x => f x = inr (g x)) l ->
  filterExc f l = inr (List.filter g l).
Proof.
  induction 1 as [|x l Hx _ IH]; [reflexivity|].
  cbn [filterExc List.filter]. rewrite Hx, IH. reflexivity.
Qed.


Lemma wire_lookupId_Some id tasks k t :
  lookupId id tasks = Some (k, t) ->
  tasks !! k = Some t /\ hasId id t = true.
Proof. unfold lookupId. rewrite list_find_Some. tauto. Qed.

(** The five ways a POST can go. *)
Lemma wire_postTask_cases nid now b tasks :
  (truthy (b !! name "title") = false
   /\ postTask nid now b tasks = inr (tasks, status_json 400 titleRequired))
  \/ (truthy (b !! name "title") = true
      /\ (forall s, b !! name "title" <> Some (JString s))
      /\ postTask nid now b tasks = inl TypeError)
  \/ (exists s, b !! name "title" = Some (JString s)
        /\ s <> [] /\ JS.blank s
        /\ postTask nid now b tasks = inr (tasks, status_json 400 titleRequired))
  \/ (exists s, b !! name "title" = Some (JString s)
        /\ ~ JS.blank s
        /\ (truthy (b !! name "category") = false
            \/ truthy (b !! name "status") = false
            \/ truthy (b !! name "priority") = false)
        /\ postTask nid now b tasks = inr (tasks, status_json 400 fieldsRequired))
  \/ (exists s, b !! name "title" = Some (JString s)
        /\ ~ JS.blank s
        /\ truthy (b !! name "category") = true
        /\ truthy (b !! name "status") = true
        /\ truthy (b !! name "priority") = true
        /\ postTask nid now b tasks =
           let created :=
             newTask nid (JS.trim s) now (b !! name "description")
               (b !! name "category") (b !! name "status") (b !! name "priority") in
           inr (tasks ++ [created], status_json 201 (BTask created))).
Proof.
  unfold postTask. cbv zeta.
  destruct (truthy (b !! name "title")) eqn:Ht; [|left; auto].
  right. cbn [negb].
  destruct (b !! name "title") as [v|] eqn:Hv; [|discriminate].
  destruct v as [| | |s| |];
    try (left; split; [reflexivity|]; split; [intros s'; discriminate | reflexivity]).
  right. cbn [trim bindExc].
  apply truthy_string in Ht.
  destruct (JS.truthy (JS.trim s)) eqn:Hts; cbn [negb].
  - assert (~ JS.blank s) as Hnb.
    { intros Hb. apply JSFacts.truthy_trim_false in Hb. congruence. }
    right.
    destruct (truthy (b !! name "category")); cbn [negb orb];
      [|left; exists s; auto 10].
    destruct (truthy (b !! name "status")); cbn [negb orb];
      [|left; exists s; auto 10].
    destruct (truthy (b !! name "priority")); cbn [negb orb];
      [|left; exists s; auto 10].
    right. exists s. auto 10.
  - left. exists s. apply JSFacts.truthy_trim_false in Hts. auto.
Qed.

(** The four ways a PATCH can go. *)
Lemma wire_patchTask_cases id updates tasks :
  (lookupId id tasks = None
   /\ patchTask id updates tasks = inr (tasks, status_json 404 taskNotFound))
  \/ (exists k t v, lookupId id tasks = Some (k, t)
        /\ updates !! name "title" = Some v
        /\ (forall s, v <> JString s)
        /\ patchTask id updates tasks = inl TypeError)
  \/ (exists k t s, lookupId id tasks = Some (k, t)
        /\ updates !! name "title" = Some (JString s)
        /\ JS.blank s
        /\ patchTask id updates tasks = inr (tasks, status_json 400 titleEmpty))
  \/ (exists k t, lookupId id tasks = Some (k, t)
        /\ (updates !! name "title" = None
            \/ exists s, updates !! name "title" = Some (JString s) /\ ~ JS.blank s)
        /\ patchTask id updates tasks
           = inr (<[k := spread t updates]> tasks, json (BTask (spread t updates)))).
Proof.
  unfold patchTask.
  destruct (lookupId id tasks) as [[k t]|]; [right | left; auto].
  destruct (updates !! name "title") as [v|] eqn:Hv.
  - destruct v as [| | |s| |];
      try (left; exists k, t; eexists; repeat split; [intros s'; discriminate]).
    right. cbn [trim bindExc].
    destruct (JS.truthy (JS.trim s)) eqn:Hts; cbn [negb].
    + right. exists k, t. split; [reflexivity|]. split; [|reflexivity].
      right. exists s. split; [reflexivity|].
      intros Hb. apply JSFacts.truthy_trim_false in Hb. congruence.
    + left. exists k, t, s. apply JSFacts.truthy_trim_false in Hts. auto.
  - right. right. exists k, t. auto.
Qed.

Lemma wire_deleteTask_cases id tasks :
  (lookupId id tasks = None
   /\ deleteTask id tasks = inr (tasks, status_json 404 taskNotFound))
  \/ (exists k t, lookupId id tasks = Some (k, t)
        /\ deleteTask id tasks = inr (delete k tasks, status_json 204 BNone)).
Proof.
  unfold deleteTask. destruct (lookupId id tasks) as [[k t]|]; [right | left]; eauto.
Qed.

(** *** Creating a task *)

Lemma newTask_description nid trimmed now d c s p :
  newTask nid trimmed now d c s p !! name "description" = Some (descriptionOrEmpty d).
Proof. destruct c, s, p; reflexivity. Qed.

Lemma newTask_title nid trimmed now d c s p :
  newTask nid trimmed now d c s p !! name "title" = Some (JString trimmed).
Proof. destruct c, s, p; reflexivity. Qed.

Lemma newTask_id nid trimmed now d c s p :
  newTask nid trimmed now d c s p !! name "id" = Some (JString nid).
Proof. destruct c, s, p; reflexivity. Qed.

Lemma descriptionOrEmpty_falsy d :
  truthy d = false -> descriptionOrEmpty d = JString [].
Proof. unfold descriptionOrEmpty. intros ->. destruct d; reflexivity. Qed.

Lemma descriptionOrEmpty_truthy d :
  truthy d = true -> Some (descriptionOrEmpty d) = d.
Proof. unfold descriptionOrEmpty. intros H. rewrite H. destruct d; [reflexivity | discriminate]. Qed.

(** C10, as amended. A POST answered with 201 has appended, and returned, a
    task that has a description: the empty string when the body's
    description is absent or otherwise falsy, and the body's description as
    it came otherwise, which is a string when the body's is one.  The
    body's title is then a string and the task's title is what is left of
    it once the longest prefix and suffix of whitespace and line
    terminators are cut off, and that is not empty. *)
Theorem wire_postTask_created_fields (nid now : jsstring) (b : jsobject) (tasks : list jsobject) :
  code (snd (serve tasks (postTask nid now b tasks))) = 201 ->
  exists created title kept,
    serve tasks (postTask nid now b tasks)
    = (tasks ++ [created], {| code := 201; body := BTask created |})
    /\ b !! name "title" = Some (JString title)
    /\ created !! name "title" = Some (JString kept)
    /\ kept = JS.trim title
    /\ (exists before after,
          title = before ++ kept ++ after /\ JS.blank before /\ JS.blank after)
    /\ kept <> []
    /\ (forall c r, kept = c :: r -> JS.isTrimmed c = false)
    /\ (forall r c, kept = r ++ [c] -> JS.isTrimmed c = false)
    /\ (truthy (b !! name "description") = false ->
        created !! name "description" = Some (JString []))
    /\ (truthy (b !! name "description") = true ->
        created !! name "description" = b !! name "description")
    /\ (forall d, b !! name "description" = Some (JString d) ->
        created !! name "description" = Some (JString d)).
Proof.
  intros Hc.
  destruct (wire_postTask_cases nid now b tasks)
    as [[_ H] | [(_ & _ & H) | [(s & _ & _ & _ & H) | [(s & _ & _ & _ & H)
       | (s & Ht & Hnb & _ & _ & _ & H)]]]];
    try (rewrite H in Hc; discriminate).
  cbv zeta in H. rewrite H. cbn [serve].
  eexists _, s, (JS.trim s). split; [reflexivity|].
  split; [assumption|]. split; [apply newTask_title|]. split; [reflexivity|].
  split.
  { destruct (JSFacts.trim_split s) as (l & r & Hs & Hl & Hr). eauto. }
  split; [rewrite JSFacts.trim_nil; assumption|].
  split; [apply JSFacts.trim_ends|]. split; [apply JSFacts.trim_ends|].
  rewrite newTask_description. split; [|split].
  - intros Hd. rewrite descriptionOrEmpty_falsy by assumption. reflexivity.
  - apply descriptionOrEmpty_truthy.
  - intros d Hd. rewrite Hd. destruct d; reflexivity.
Qed.

Lemma wire_postTask_created_fields_witness :
  let b : jsobject :=
    <[name "title" := JString (JS.lit "  Ship it ")]>
    (<[name "description" := JNull]>
    (<[name "category" := JString (JS.lit "Feature")]>
    (<[name "status" := JString (JS.lit "To Do")]>
    (<[name "priority" := JString (JS.lit "High")]> ∅)))) in
  exists created,
    serve seed (postTask (JS.lit "V1StGXR8") (JS.lit "2025-08-01T00:00:00Z") b seed)
    = (seed ++ [created], {| code := 201; body := BTask created |})
    /\ created !! name "title" = Some (JString (JS.lit "Ship it"))
    /\ created !! name "description" = Some (JString []).
Proof.
  intros b.
  destruct (wire_postTask_created_fields (JS.lit "V1StGXR8")
              (JS.lit "2025-08-01T00:00:00Z") b seed eq_refl)
    as (created & title & kept & Hp & Ht & Hk & -> & _ & _ & _ & _ & Hd & _).
  exists created. split; [exact Hp|]. split.
  - rewrite Hk. injection Ht as <-. reflexivity.
  - apply Hd. reflexivity.
Defined.

(** C10 fails as stated: a POST whose body has the number 123 as its
    description is answered with 201, and the description of the task it
    stores and returns is that number, not a string. *)
Lemma wire_postTask_description_number :
  let b : jsobject :=
    <[name "title" := JString (JS.lit "Ship it")]>
    (<[name "description" := JNumber (NumFinite false 123 0)]>
    (<[name "category" := JString (JS.lit "Feature")]>
    (<[name "status" := JString (JS.lit "To Do")]>
    (<[name "priority" := JString (JS.lit "High")]> ∅)))) in
  exists created,
    serve seed (postTask (JS.lit "V1StGXR8") (JS.lit "2025-08-01T00:00:00Z") b seed)
    = (seed ++ [created], {| code := 201; body := BTask created |})
    /\ created !! name "description" = Some (JNumber (NumFinite false 123 0))
    /\ forall s, created !! name "description" <> Some (JString s).
Proof.
  eexists. split; [reflexivity|]. split; [reflexivity|].
  intros s. vm_compute. discriminate.
Qed.

(** X2. A POST is answered with 201 exactly when the body's title is a
    string that is not blank and its category, status and priority are
    truthy; with 500 exactly when the title is truthy without being a
    string (the call of [trim] on it throws); and with 400 otherwise.  Only
    a 201 changes the collection. *)
Theorem wire_postTask_outcome (nid now : jsstring) (b : jsobject) (tasks : list jsobject) :
  (code (snd (serve tasks (postTask nid now b tasks))) = 201 <->
     (exists s, b !! name "title" = Some (JString s) /\ ~ JS.blank s)
     /\ truthy (b !! name "category") = true
     /\ truthy (b !! name "status") = true
     /\ truthy (b !! name "priority") = true)
  /\ (code (snd (serve tasks (postTask nid now b tasks))) = 500 <->
       truthy (b !! name "title") = true
       /\ forall s, b !! name "title" <> Some (JString s))
  /\ (code (snd (serve tasks (postTask nid now b tasks))) = 201
      \/ ((code (snd (serve tasks (postTask nid now b tasks))) = 400
           \/ code (snd (serve tasks (postTask nid now b tasks))) = 500)
          /\ fst (serve tasks (postTask nid now b tasks)) = tasks)).
Proof.
  destruct (wire_postTask_cases nid now b tasks)
    as [[Hf H] | [(Ht & Hns & H) | [(s & Hs & Hne & Hb & H) | [(s & Hs & Hnb & Hm & H)
       | (s & Hs & Hnb & Hc & Hst & Hp & H)]]]];
    cbv zeta in H; rewrite H; cbn [serve snd fst code status_json].
  - split; [|split; [|right; auto]].
    + split; [discriminate|]. intros ((s & Hs & Hnb) & _). exfalso.
      rewrite Hs in Hf. apply Hnb. destruct s; [apply JSFacts.blank_nil | discriminate].
    + split; [discriminate|]. intros [Ht _]. exfalso. congruence.
  - split; [|split; [|right; auto]].
    + split; [discriminate|]. intros ((s & Hs & _) & _). exfalso. exact (Hns s Hs).
    + split; auto.
  - split; [|split; [|right; auto]].
    + split; [discriminate|]. intros ((s' & Hs' & Hnb) & _). exfalso.
      rewrite Hs in Hs'. injection Hs' as <-. contradiction.
    + split; [discriminate|]. intros [_ Hns]. exfalso. exact (Hns s Hs).
  - split; [|split; [|right; auto]].
    + split; [discriminate|]. intros (_ & Hc & Hst & Hp). exfalso.
      destruct Hm as [Hm | [Hm | Hm]]; congruence.
    + split; [discriminate|]. intros [_ Hns]. exfalso. exact (Hns s Hs).
  - split; [|split; [|left; reflexivity]].
    + split; [|reflexivity]. intros _. eauto 10.
    + split; [discriminate|]. intros [_ Hns]. exfalso. exact (Hns s Hs).
Qed.

(** *** Listing *)

(** The date test as a total function, for the tasks it does not throw on. *)
Lemma dateMatches_string d t :
  stringAt (name "createdAt") t ->
  dateMatches d t
  = inr (match t !! name "createdAt" with
         | Some (JString c) => JS.startsWith c d
         | _ => false
         end).
Proof. intros [c Hc]. unfold dateMatches. rewrite Hc. reflexivity. Qed.


Lemma titleMatches_string lower s t :
  stringAt (name "title") t ->
  titleMatches lower s t
  = inr (match t !! name "title" with
         | Some (JString x) => JS.includes (lower x) (lower s)
         | _ => false
         end).
Proof. intros [x Hx]. unfold titleMatches. rewrite Hx. reflexivity. Qed.




(** X18. On a collection in which every title and every createdAt is a
    string, GET /tasks answers 200, whatever the query, with stored tasks
    in storage order: exactly those that pass the title test when the
    title parameter is a string and the date test when the date parameter
    is a string.  A parameter that is absent, or that the query parser
    turned into an array or an object, filters nothing. *)
Theorem wire_getTasks_outcome
    (toLowerCase : jsstring -> jsstring) (q : Query) (tasks : list jsobject) :
  toLowerCase [] = [] ->
  Forall (stringAt (name "title")) tasks ->
  Forall (stringAt (name "createdAt")) tasks ->
  exists result,
    serve tasks (getTasks toLowerCase q tasks)
    = (tasks, {| code := 200; body := BTasks result |})
    /\ result `sublist_of` tasks
    /\ forall t, t ∈ result <->
         t ∈ tasks
         /\ (forall s, q_title q = QString s ->
               exists x, t !! name "title" = Some (JString x)
                         /\ JS.occursIn (toLowerCase s) (toLowerCase x))
         /\ (forall d, q_date q = QString d ->
               exists c, t !! name "createdAt" = Some (JString c) /\ d `prefix_of` c).
Proof.
  intros Hlow Htitles Hdates.
  set (byTitle s := fun t : jsobject =>
         match t !! name "title" with
         | Some (JString x) => JS.includes (toLowerCase x) (toLowerCase s)
         | _ => false
         end).
  set (byDate d := fun t : jsobject =>
         match t !! name "createdAt" with
         | Some (JString c) => JS.startsWith c d
         | _ => false
         end).
  set (r1 := match stringFilter (q_title q) with
             | Some s => List.filter (byTitle s) tasks
             | None => tasks
             end).
  set (r2 := match stringFilter (q_date q) with
             | Some d => List.filter (byDate d) r1
             | None => r1
             end).
  assert (r1 `sublist_of` tasks) as Hsub1.
  { unfold r1. destruct (stringFilter (q_title q)); [apply filter_sublist | reflexivity]. }
  assert (r2 `sublist_of` r1) as Hsub2.
  { unfold r2. destruct (stringFilter (q_date q)); [apply filter_sublist | reflexivity]. }
  assert (Forall (stringAt (name "createdAt")) r1) as Hdates1.
  { rewrite Forall_forall in Hdates |- *. intros t Ht.
    apply Hdates. eapply elem_of_sublist; eassumption. }
  assert (getTasks toLowerCase q tasks = inr (tasks, json (BTasks r2))) as Hrun.
  { unfold getTasks, r2, r1. cbv zeta.
    destruct (stringFilter (q_title q)) as [s|] eqn:Es; cbn [bindExc].
    - rewrite (filterExc_returns _ (byTitle s)).
      2:{ eapply Forall_impl; [exact Htitles|]. intros t Ht.
          apply titleMatches_string, Ht. }
      cbn [bindExc].
      destruct (stringFilter (q_date q)) as [d|] eqn:Ed; cbn [bindExc]; [|reflexivity].
      rewrite (filterExc_returns _ (byDate d)); [reflexivity|].
      eapply Forall_impl; [|intros t Ht; apply dateMatches_string, Ht].
      exact Hdates1.
    - destruct (stringFilter (q_date q)) as [d|] eqn:Ed; cbn [bindExc]; [|reflexivity].
      rewrite (filterExc_returns _ (byDate d)); [reflexivity|].
      eapply Forall_impl; [exact Hdates|]. intros t Ht. apply dateMatches_string, Ht. }
  exists r2. rewrite Hrun. split; [reflexivity|].
  split; [etrans; eassumption|].
  intros t.
  assert (t ∈ r1 <-> t ∈ tasks /\ forall s, q_title q = QString s ->
            exists x, t !! name "title" = Some (JString x)
                      /\ JS.occursIn (toLowerCase s) (toLowerCase x)) as H1.
  { unfold r1. destruct (q_title q) as [|[|c s]|]; cbn [stringFilter JS.truthy].
    - split; [intros Ht; split; [assumption | discriminate] | tauto].
    - split; [|tauto]. intros Ht. split; [assumption|]. intros s [= <-].
      rewrite Forall_forall in Htitles. destruct (Htitles t Ht) as [x Hx].
      exists x. split; [assumption|]. rewrite Hlow. exists [], (toLowerCase x). reflexivity.
    - rewrite elem_of_filter. unfold byTitle. split.
      + intros [Ht Hm]. split; [assumption|]. intros s' [= <-].
        destruct (t !! name "title") as [[| | |x| |]|]; try discriminate.
        exists x. split; [reflexivity|]. apply JSFacts.includes_occursIn, Hm.
      + intros [Ht Hm]. split; [assumption|].
        destruct (Hm _ eq_refl) as (x & -> & Hx).
        apply JSFacts.includes_occursIn, Hx.
    - split; [intros Ht; split; [assumption | discriminate] | tauto]. }
  assert (t ∈ r2 <-> t ∈ r1 /\ forall d, q_date q = QString d ->
            exists c, t !! name "createdAt" = Some (JString c) /\ d `prefix_of` c) as H2.
  { unfold r2. destruct (q_date q) as [|[|c d]|]; cbn [stringFilter JS.truthy].
    - split; [intros Ht; split; [assumption | discriminate] | tauto].
    - split; [|tauto]. intros Ht. split; [assumption|]. intros d [= <-].
      rewrite Forall_forall in Hdates1. destruct (Hdates1 t Ht) as [x Hx].
      exists x. split; [assumption | apply prefix_nil].
    - rewrite elem_of_filter. unfold byDate. split.
      + intros [Ht Hm]. split; [assumption|]. intros d' [= <-].
        destruct (t !! name "createdAt") as [[| | |x| |]|]; try discriminate.
        exists x. split; [reflexivity|]. apply JSFacts.startsWith_prefix, Hm.
      + intros [Ht Hm]. split; [assumption|].
        destruct (Hm _ eq_refl) as (x & -> & Hx).
        apply JSFacts.startsWith_prefix, Hx.
    - split; [intros Ht; split; [assumption | discriminate] | tauto]. }
  rewrite H2, H1. tauto.
Qed.

Lemma seed_strings k :
  k ∈ [name "id"; name "title"; name "createdAt"] -> Forall (stringAt k) seed.
Proof.
  intros Hk. repeat (apply elem_of_cons in Hk as [-> | Hk]);
    [| | | apply elem_of_nil in Hk; contradiction];
    repeat constructor; eexists; vm_compute; reflexivity.
Qed.

Lemma wire_getTasks_outcome_witness :
  let q := {| q_title := QString (JS.lit "Fix"); q_date := QString (JS.lit "2025-07-1") |} in
  exists result,
    serve seed (getTasks JS.asciiLower q seed)
    = (seed, {| code := 200; body := BTasks result |})
    /\ result `sublist_of` seed
    /\ forall t, t ∈ result <->
         t ∈ seed
         /\ (forall s, q_title q = QString s ->
               exists x, t !! name "title" = Some (JString x)
                         /\ JS.occursIn (JS.asciiLower s) (JS.asciiLower x))
         /\ (forall d, q_date q = QString d ->
               exists c, t !! name "createdAt" = Some (JString c) /\ d `prefix_of` c).
Proof.
  apply (wire_getTasks_outcome JS.asciiLower); [reflexivity | |];
    apply seed_strings; set_solver.
Defined.

(** *** Every mutating request *)

(** X16. A create, update or delete request has one of five outcomes: 201
    with the created task, which is appended to the collection; 200 with a
    task, the collection keeping its length; 204 without a body, the
    collection losing one task; 400 or 404 with an error message, the
    collection unchanged; or, when the body of a create or update request
    has a title that is not a string, 500 from the uncaught exception, the
    collection unchanged. *)
Theorem wire_step_outcome (op : Op) (tasks : list jsobject) :
  (exists t, step op tasks = (tasks ++ [t], {| code := 201; body := BTask t |}))
  \/ (exists t, snd (step op tasks) = {| code := 200; body := BTask t |}
                /\ length (fst (step op tasks)) = length tasks)
  \/ (snd (step op tasks) = {| code := 204; body := BNone |}
      /\ S (length (fst (step op tasks))) = length tasks)
  \/ ((code (snd (step op tasks)) = 400 \/ code (snd (step op tasks)) = 404)
      /\ (exists e, body (snd (step op tasks)) = BError e)
      /\ fst (step op tasks) = tasks)
  \/ (step op tasks = (tasks, {| code := 500; body := BUncaught TypeError |})
      /\ match op with
         | Create _ _ b | Update _ b =>
             exists v, b !! name "title" = Some v /\ forall s, v <> JString s
         | Delete _ => False
         end).
Proof.
  destruct op as [nid now b | id updates | id]; unfold step.
  - destruct (wire_postTask_cases nid now b tasks)
      as [[_ H] | [(Ht & Hns & H) | [(s & _ & _ & _ & H) | [(s & _ & _ & _ & H)
         | (s & _ & _ & _ & _ & _ & H)]]]];
      cbv zeta in H; rewrite H; cbn [serve].
    + do 3 right. left. unfold titleRequired. eauto 10.
    + do 4 right. split; [reflexivity|].
      destruct (b !! name "title") as [v|]; [|discriminate].
      exists v. split; [reflexivity|]. intros s ->. exact (Hns s eq_refl).
    + do 3 right. left. unfold titleRequired. eauto 10.
    + do 3 right. left. unfold fieldsRequired. eauto 10.
    + left. eauto.
  - destruct (wire_patchTask_cases id updates tasks)
      as [[_ H] | [(k & t & v & _ & Hv & Hns & H) | [(k & t & s & _ & _ & _ & H)
         | (k & t & _ & _ & H)]]];
      rewrite H; cbn [serve].
    + do 3 right. left. unfold taskNotFound. eauto 10.
    + do 4 right. eauto.
    + do 3 right. left. unfold titleEmpty. eauto 10.
    + right. left. eexists. split; [reflexivity|]. apply length_insert.
  - destruct (wire_deleteTask_cases id tasks) as [[_ H] | (k & t & Hl & H)];
      rewrite H; cbn [serve].
    + do 3 right. left. unfold taskNotFound. eauto 10.
    + do 2 right. left. split; [reflexivity|].
      apply wire_lookupId_Some in Hl as [Hk _]. cbn [fst].
      pose proof (lookup_lt_Some _ _ _ Hk).
      rewrite length_delete by eauto. lia.
Qed.

(** *** What every stored task has *)









End WireFacts.

(** ** The typed handlers are the server on well-typed requests

    On a store of well-typed tasks and a well-typed body, the server as it
    runs does what the typed handlers say: the statements proved of the
    typed handlers hold of the server for such requests. *)

Section Typed.

Implicit Types (t : Task.t) (tasks : list Task.t) (id : jsstring).

Lemma ofTask_id t : Wire.ofTask t !! Wire.name "id" = Some (JString (Task.id t)).
Proof. destruct t as [i ti [d|] c s p ca]; reflexivity. Qed.

Lemma ofTask_title t : Wire.ofTask t !! Wire.name "title" = Some (JString (Task.title t)).
Proof. destruct t as [i ti [d|] c s p ca]; reflexivity. Qed.

Lemma ofTask_createdAt t :
  Wire.ofTask t !! Wire.name "createdAt" = Some (JString (Task.createdAt t)).
Proof. destruct t as [i ti [d|] c s p ca]; reflexivity. Qed.

Lemma ofPartial_fields (b : Partial.t) :
  Wire.ofPartial b !! Wire.name "title" = JString <$> Partial.title b
  /\ Wire.ofPartial b !! Wire.name "description" = JString <$> Partial.description b
  /\ Wire.ofPartial b !! Wire.name "category"
     = JString ∘ Wire.categoryText <$> Partial.category b
  /\ Wire.ofPartial b !! Wire.name "status"
     = JString ∘ Wire.statusText <$> Partial.status b
  /\ Wire.ofPartial b !! Wire.name "priority"
     = JString ∘ Wire.priorityText <$> Partial.priority b.
Proof.
  destruct b as [[?|] [?|] [?|] [?|] [?|] [?|] [?|]]; repeat split; reflexivity.
Qed.

Lemma hasId_ofTask id t : Wire.hasId id (Wire.ofTask t) = bool_decide (Task.id t = id).
Proof. unfold Wire.hasId. rewrite ofTask_id. reflexivity. Qed.

Lemma lookupId_ofTask id tasks :
  Wire.lookupId id (Wire.ofTask <$> tasks)
  = prod_map (fun k => k) Wire.ofTask <$> lookupId id tasks.
Proof.
  unfold Wire.lookupId, lookupId. rewrite list_find_fmap.
  f_equal. apply list_find_ext. intros t. unfold compose.
  rewrite hasId_ofTask. apply bool_decide_eq_true.
Qed.

Lemma optional_union (k : jsstring) (o : option JSON) (m m' : jsobject) :
  Wire.optional k o m ∪ m' = Wire.optional k o (m ∪ m').
Proof. destruct o; [symmetry; apply insert_union_l | reflexivity]. Qed.

Lemma ofTask_set_id t (o : option jsstring) :
  Wire.optional (Wire.name "id") (JString <$> o) (Wire.ofTask t)
  = Wire.ofTask (Task.mk (default (Task.id t) o) (Task.title t) (Task.description t)
                   (Task.category t) (Task.status t) (Task.priority t) (Task.createdAt t)).
Proof. destruct t as [i ti [d|] c s p ca], o; reflexivity. Qed.

Lemma ofTask_set_title t (o : option jsstring) :
  Wire.optional (Wire.name "title") (JString <$> o) (Wire.ofTask t)
  = Wire.ofTask (Task.mk (Task.id t) (default (Task.title t) o) (Task.description t)
                   (Task.category t) (Task.status t) (Task.priority t) (Task.createdAt t)).
Proof. destruct t as [i ti [d|] c s p ca], o; reflexivity. Qed.

Lemma ofTask_set_description t (o : option jsstring) :
  Wire.optional (Wire.name "description") (JString <$> o) (Wire.ofTask t)
  = Wire.ofTask (Task.mk (Task.id t) (Task.title t)
                   (match o with Some d => Some d | None => Task.description t end)
                   (Task.category t) (Task.status t) (Task.priority t) (Task.createdAt t)).
Proof. destruct t as [i ti [d|] c s p ca], o; reflexivity. Qed.

Lemma ofTask_set_category t (o : option TaskCategory) :
  Wire.optional (Wire.name "category") (JString ∘ Wire.categoryText <$> o) (Wire.ofTask t)
  = Wire.ofTask (Task.mk (Task.id t) (Task.title t) (Task.description t)
                   (default (Task.category t) o) (Task.status t) (Task.priority t)
                   (Task.createdAt t)).
Proof. destruct t as [i ti [d|] c s p ca], o; reflexivity. Qed.

Lemma ofTask_set_status t (o : option TaskStatus) :
  Wire.optional (Wire.name "status") (JString ∘ Wire.statusText <$> o) (Wire.ofTask t)
  = Wire.ofTask (Task.mk (Task.id t) (Task.title t) (Task.description t)
                   (Task.category t) (default (Task.status t) o) (Task.priority t)
                   (Task.createdAt t)).
Proof. destruct t as [i ti [d|] c s p ca], o; reflexivity. Qed.

Lemma ofTask_set_priority t (o : option TaskPriority) :
  Wire.optional (Wire.name "priority") (JString ∘ Wire.priorityText <$> o) (Wire.ofTask t)
  = Wire.ofTask (Task.mk (Task.id t) (Task.title t) (Task.description t)
                   (Task.category t) (Task.status t) (default (Task.priority t) o)
                   (Task.createdAt t)).
Proof. destruct t as [i ti [d|] c s p ca], o; reflexivity. Qed.

Lemma ofTask_set_createdAt t (o : option jsstring) :
  Wire.optional (Wire.name "createdAt") (JString <$> o) (Wire.ofTask t)
  = Wire.ofTask (Task.mk (Task.id t) (Task.title t) (Task.description t)
                   (Task.category t) (Task.status t) (Task.priority t)
                   (default (Task.createdAt t) o)).
Proof. destruct t as [i ti [d|] c s p ca], o; reflexivity. Qed.

(** Copying a well-typed body over a well-typed task gives the object of
    the typed merge. *)
Lemma spread_ofTask t (updates : Partial.t) :
  Wire.spread (Wire.ofTask t) (Wire.ofPartial updates) = Wire.ofTask (spread t updates).
Proof.
  unfold Wire.spread, Wire.ofPartial. rewrite !optional_union.
  rewrite (left_id ∅ (∪)).
  rewrite ofTask_set_createdAt, ofTask_set_priority, ofTask_set_status,
    ofTask_set_category, ofTask_set_description, ofTask_set_title, ofTask_set_id.
  reflexivity.
Qed.

Lemma truthy_texts c s p :
  Wire.truthy (Some (JString (Wire.categoryText c))) = true
  /\ Wire.truthy (Some (JString (Wire.statusText s))) = true
  /\ Wire.truthy (Some (JString (Wire.priorityText p))) = true.
Proof. destruct c, s, p; repeat split; reflexivity. Qed.

Lemma newTask_ofTask nid trimmed now (d : option jsstring) c s p :
  Wire.newTask nid trimmed now (JString <$> d)
    (Some (JString (Wire.categoryText c))) (Some (JString (Wire.statusText s)))
    (Some (JString (Wire.priorityText p)))
  = Wire.ofTask (Task.mk nid trimmed (Some (descriptionOrEmpty d)) c s p now).
Proof. destruct d as [[|x d]|]; reflexivity. Qed.

(** GET /tasks/:id. *)
Lemma getTask_typed id tasks :
  Wire.serve (Wire.ofTask <$> tasks) (Wire.getTask id (Wire.ofTask <$> tasks))
  = (Wire.ofTask <$> tasks, wireResponse (getTask id tasks)).
Proof.
  unfold Wire.getTask, getTask, find. rewrite lookupId_ofTask.
  destruct (lookupId id tasks) as [[k t]|]; reflexivity.
Qed.

(** POST /tasks. *)
Lemma postTask_typed nid now (b : Partial.t) tasks :
  Wire.serve (Wire.ofTask <$> tasks)
    (Wire.postTask nid now (Wire.ofPartial b) (Wire.ofTask <$> tasks))
  = wireOutcome (postTask nid now b tasks).
Proof.
  destruct (ofPartial_fields b) as (Ht & Hd & Hc & Hs & Hp).
  unfold Wire.postTask, postTask. cbv zeta. rewrite Ht, Hd, Hc, Hs, Hp.
  destruct (Partial.title b) as [[|x title]|]; try reflexivity.
  cbn [fmap option_fmap option_map Wire.truthy JS.truthy negb Wire.trim bindExc
       titleMissing orb].
  destruct (JS.truthy (JS.trim (x :: title))) eqn:Htrim; cbn [negb]; [|reflexivity].
  destruct (Partial.category b) as [c|]; [|reflexivity].
  destruct (Partial.status b) as [s|];
    [|destruct (truthy_texts c ToDo Low) as (Hc' & _); cbn [fmap option_fmap option_map compose];
      rewrite Hc'; reflexivity].
  destruct (Partial.priority b) as [p|];
    [|destruct (truthy_texts c s Low) as (Hc' & Hs' & _);
      cbn [fmap option_fmap option_map compose]; rewrite Hc', Hs'; reflexivity].
  destruct (truthy_texts c s p) as (Hc' & Hs' & Hp').
  cbn [fmap option_fmap option_map compose]. rewrite Hc', Hs', Hp'.
  cbn [negb orb Wire.serve]. fold (@fmap option _ _ _ JString (Partial.description b)).
  unfold wireOutcome, wireResponse. cbn [fst snd code body wireBody status_json].
  rewrite fmap_app. cbn [fmap list_fmap].
  change (option_map JString (Partial.description b))
    with (JString <$> Partial.description b).
  rewrite newTask_ofTask. reflexivity.
Qed.

(** PATCH /tasks/:id. *)
Lemma patchTask_typed id (updates : Partial.t) tasks :
  Wire.serve (Wire.ofTask <$> tasks)
    (Wire.patchTask id (Wire.ofPartial updates) (Wire.ofTask <$> tasks))
  = wireOutcome (patchTask id updates tasks).
Proof.
  destruct (ofPartial_fields updates) as (Ht & _).
  unfold Wire.patchTask, patchTask. rewrite lookupId_ofTask, Ht.
  destruct (lookupId id tasks) as [[k t]|]; [|reflexivity].
  cbn [fmap option_fmap option_map prod_map fst snd].
  destruct (Partial.title updates) as [s|];
    cbn [fmap option_fmap option_map Wire.trim bindExc titleBlank].
  - destruct (JS.truthy (JS.trim s)); cbn [negb]; [|reflexivity].
    cbn [Wire.serve]. unfold wireOutcome, wireResponse.
    cbn [fst snd code body wireBody json].
    rewrite list_fmap_insert, spread_ofTask. reflexivity.
  - cbn [Wire.serve]. unfold wireOutcome, wireResponse.
    cbn [fst snd code body wireBody json].
    rewrite list_fmap_insert, spread_ofTask. reflexivity.
Qed.

(** DELETE /tasks/:id. *)
Lemma deleteTask_typed id tasks :
  Wire.serve (Wire.ofTask <$> tasks) (Wire.deleteTask id (Wire.ofTask <$> tasks))
  = wireOutcome (deleteTask id tasks).
Proof.
  unfold Wire.deleteTask, deleteTask, findIndex. rewrite lookupId_ofTask.
  destruct (lookupId id tasks) as [[k t]|]; [|reflexivity].
  cbn [fmap option_fmap option_map prod_map fst snd Wire.serve].
  unfold wireOutcome. cbn [fst snd]. rewrite list_fmap_delete. reflexivity.
Qed.

Lemma filterExc_ofTask (f : jsobject -> Exc bool) (g : Task.t -> bool) tasks :
  (forall t, f (Wire.ofTask t) = inr (g t)) ->
  Wire.filterExc f (Wire.ofTask <$> tasks) = inr (Wire.ofTask <$> List.filter g tasks).
Proof.
  intros H. induction tasks as [|t tasks IH]; [reflexivity|].
  cbn [fmap list_fmap Wire.filterExc List.filter] in *.
  rewrite H, IH. cbn [bindExc]. destruct (g t); reflexivity.
Qed.

(** GET /tasks. *)
Lemma getTasks_typed (toLowerCase : jsstring -> jsstring) (q : Query) tasks :
  Wire.serve (Wire.ofTask <$> tasks)
    (Wire.getTasks toLowerCase q (Wire.ofTask <$> tasks))
  = (Wire.ofTask <$> tasks, wireResponse (getTasks toLowerCase q tasks)).
Proof.
  unfold Wire.getTasks, getTasks. cbv zeta.
  assert (forall d l, Wire.filterExc (Wire.dateMatches d) (Wire.ofTask <$> l)
                      = inr (Wire.ofTask <$> List.filter (dateMatches d) l)) as Hd.
  { intros d l. apply filterExc_ofTask. intros t.
    unfold Wire.dateMatches, dateMatches. rewrite ofTask_createdAt. reflexivity. }
  destruct (stringFilter (q_title q)) as [s|].
  - rewrite (filterExc_ofTask _ (titleMatches toLowerCase s)).
    2:{ intros t. unfold Wire.titleMatches, titleMatches.
        rewrite ofTask_title. reflexivity. }
    cbn [bindExc]. destruct (stringFilter (q_date q)) as [d|]; [rewrite Hd|]; reflexivity.
  - cbn [bindExc]. destruct (stringFilter (q_date q)) as [d|]; [rewrite Hd|]; reflexivity.
Qed.

Lemma step_typed (op : Op) tasks :
  Wire.step (wireOp op) (Wire.ofTask <$> tasks) = wireOutcome (step op tasks).
Proof.
  destruct op as [nid now b | id updates | id]; unfold Wire.step; cbn [wireOp step].
  - apply postTask_typed.
  - apply patchTask_typed.
  - apply deleteTask_typed.
Qed.

(** X21. Well-typed traffic keeps the server within the typed handlers:
    after any sequence of create, update and delete requests with
    well-typed bodies on a well-typed store, the store the server holds is
    the one the typed handlers compute, and each response along the way is
    the typed one. *)
Theorem run_typed (ops : list Op) (tasks : list Task.t) :
  Wire.run (wireOp <$> ops) (Wire.ofTask <$> tasks) = Wire.ofTask <$> run ops tasks
  /\ forall op,
       Wire.step (wireOp op) (Wire.ofTask <$> run ops tasks)
       = (Wire.ofTask <$> fst (step op (run ops tasks)),
          wireResponse (snd (step op (run ops tasks)))).
Proof.
  split.
  - revert tasks. induction ops as [|op ops IH]; intros tasks; [reflexivity|].
    cbn [fmap list_fmap Wire.run run]. rewrite step_typed. cbn [wireOutcome fst].
    apply IH.
  - intros op. apply step_typed.
Qed.

End Typed.

(** ** The handlers at work on the seed *)

Example trim_spaces : JS.trim (JS.lit "  a b ") = JS.lit "a b".
Proof. reflexivity. Qed.

Example getTasks_BUG :
  getTasks JS.asciiLower {| q_title := QString (JS.lit "BUG"); q_date := QUndefined |} seed
  = json (BTasks (List.filter (fun t => bool_decide (Task.id t = JS.lit "5")) seed)).
Proof. vm_compute. reflexivity. Qed.

Example getTasks_fix_on_17th :
  getTasks JS.asciiLower
    {| q_title := QString (JS.lit "fix"); q_date := QString (JS.lit "2025-07-17") |} seed
  = json (BTasks (List.filter (fun t => bool_decide (Task.id t = JS.lit "5")) seed)).
Proof. vm_compute. reflexivity. Qed.

Example getTasks_repeated_key :
  getTasks JS.asciiLower {| q_title := QNested; q_date := QUndefined |} seed
  = json (BTasks seed).
Proof. reflexivity. Qed.

Example getTask_3 : getTask (JS.lit "3") seed = status_json 404 taskNotFound.
Proof. reflexivity. Qed.

Example postTask_no_priority :
  postTask (JS.lit "V1StGXR8") (JS.lit "2025-08-01T00:00:00Z")
    (Partial.mk None (Some (JS.lit "Ship it")) None (Some Feature) (Some ToDo) None None) seed
  = (seed, status_json 400 fieldsRequired).
Proof. reflexivity. Qed.

Example patchTask_blank_title :
  patchTask (JS.lit "1")
    (Partial.mk None (Some (JS.lit " ")) None None None None None) seed
  = (seed, status_json 400 titleEmpty).
Proof. reflexivity. Qed.

Example deleteTask_twice :
  snd (deleteTask (JS.lit "4") (fst (deleteTask (JS.lit "4") seed)))
  = status_json 404 taskNotFound.
Proof. reflexivity. Qed.

Example wire_post_title_number :
  let b : jsobject := <[Wire.name "title" := JNumber (NumFinite false 123 0)]> ∅ in
  Wire.step (Wire.Create (JS.lit "V1StGXR8") (JS.lit "2025-08-01T00:00:00Z") b) []
  = ([], Wire.status_json 500 (Wire.BUncaught TypeError)).
Proof. reflexivity. Qed.

Example wire_post_category_empty :
  let b : jsobject :=
    <[Wire.name "title" := JString (JS.lit "Ship it")]>
    (<[Wire.name "category" := JString []]>
    (<[Wire.name "status" := JString (JS.lit "To Do")]>
    (<[Wire.name "priority" := JString (JS.lit "High")]> ∅))) in
  Wire.step (Wire.Create (JS.lit "V1StGXR8") (JS.lit "2025-08-01T00:00:00Z") b) []
  = ([], Wire.status_json 400 Wire.fieldsRequired).
Proof. reflexivity. Qed.

Example wire_patch_description_null :
  let updates : jsobject := <[Wire.name "description" := JNull]> ∅ in
  Wire.code (snd (Wire.step (Wire.Update (JS.lit "1") updates) Wire.seed)) = 200
  /\ fst (Wire.step (Wire.Update (JS.lit "1") updates) Wire.seed) !! 0%nat
       ≫= (fun t => t !! Wire.name "description")
     = Some JNull.
Proof. split; vm_compute; reflexivity. Qed.
